(** * make-babel: template-name resolution, directory checks and install
      clean-up of the project generator, embedded from
      [packages/make-babel/index.js] and [packages/make-babel/util/index.js]. *)

From Stdlib Require Import List NArith ZArith String Ascii Bool Arith Lia.
From Stdlib Require Import DecimalString SpecFloat.
Import ListNotations.

(** ** JavaScript strings

    A JavaScript string is a sequence of 16-bit code units; the regular
    expressions of the program look at single code units (the dot excludes
    the four line terminators, two of which lie above the Latin-1 range). *)

Definition code_unit := N.
Definition str := list code_unit.

Abbreviation len := (@List.length code_unit).

Definition js (s : string) : str :=
  map N_of_ascii (list_ascii_of_string s).

Fixpoint str_eqb (a b : str) : bool :=
  match a, b with
  | [], [] => true
  | x :: a', y :: b' => N.eqb x y && str_eqb a' b'
  | _, _ => false
  end.

(** [s.startsWith(p)] *)
Fixpoint startsWith (p s : str) : bool :=
  match p, s with
  | [], _ => true
  | x :: p', y :: s' => N.eqb x y && startsWith p' s'
  | _ :: _, [] => false
  end.

(** [s.includes(p)] *)
Fixpoint includes (p s : str) : bool :=
  startsWith p s ||
  match s with
  | [] => false
  | _ :: s' => includes p s'
  end.

(** [xs.includes(x)] on an array of strings *)
Definition arr_includes (x : str) (xs : list str) : bool :=
  existsb (str_eqb x) xs.

(** Truthiness of a string value: only the empty string is falsy. *)
Definition truthy_str (s : str) : bool :=
  match s with [] => false | _ => true end.

(** ** Regular expressions

    A backtracking matcher in continuation-passing style, after the
    matcher/continuation semantics of ECMA-262 (section RegExp Pattern
    Semantics): alternatives are tried left to right, quantifiers are
    greedy, an iteration of a quantifier that consumes nothing is
    rejected, and the captures of a quantified term are cleared when an
    iteration starts. *)

Module Regex.

Inductive re :=
| Eps
| Chr (c : code_unit)
| Cls (p : code_unit -> bool)
| Seq (a b : re)
| Alt (a b : re)
| Opt (a : re)
| Star (a : re)
| Grp (i : nat) (a : re)
| Bol
| Eol.

Definition Plus (a : re) : re := Seq a (Star a).

Fixpoint Lit (s : str) : re :=
  match s with
  | [] => Eps
  | c :: s' => Seq (Chr c) (Lit s')
  end.

(** Capture [i] (numbered from 1) lives at position [i - 1]. *)
Definition captures := list (option str).

Record state := mkState { rest : str; caps : captures }.

Definition cont := state -> option state.

Fixpoint set_cap (i : nat) (v : option str) (cs : captures) : captures :=
  match cs, i with
  | [], _ => []
  | c :: cs', 0 => c :: cs'
  | _ :: cs', 1 => v :: cs'
  | c :: cs', S i' => c :: set_cap i' v cs'
  end.

Arguments set_cap !i v !cs /.

Fixpoint groups (r : re) : list nat :=
  match r with
  | Seq a b | Alt a b => groups a ++ groups b
  | Opt a | Star a => groups a
  | Grp i a => i :: groups a
  | _ => []
  end.

Definition clear (gs : list nat) (x : state) : state :=
  mkState (rest x) (fold_right (fun i cs => set_cap i None cs) (caps x) gs).

Definition orelse (a b : option state) : option state :=
  match a with
  | Some z => Some z
  | None => b
  end.

Definition consumed (x y : state) : bool :=
  negb (len (rest y) =? len (rest x)).

(** The iterations of [a*]: [fuel] bounds their number, and the length of
    the remaining input is enough since every iteration consumes. *)
Fixpoint star_loop (ma : state -> cont -> option state) (gs : list nat)
    (k : cont) (fuel : nat) (x : state) : option state :=
  match fuel with
  | 0 => k x
  | S fuel' =>
      orelse (ma (clear gs x)
                (fun y => if consumed x y then star_loop ma gs k fuel' y else None))
             (k x)
  end.

Section Matcher.

(** The whole subject string, for the start-of-input assertion. *)
Variable input : str.

Fixpoint m (r : re) (x : state) (k : cont) {struct r} : option state :=
  match r with
  | Eps => k x
  | Chr c =>
      match rest x with
      | ch :: t => if N.eqb ch c then k (mkState t (caps x)) else None
      | [] => None
      end
  | Cls p =>
      match rest x with
      | ch :: t => if p ch then k (mkState t (caps x)) else None
      | [] => None
      end
  | Seq a b => m a x (fun y => m b y k)
  | Alt a b => orelse (m a x k) (m b x k)
  | Opt a =>
      orelse (m a (clear (groups a) x)
                (fun y => if consumed x y then k y else None))
             (k x)
  | Star a => star_loop (m a) (groups a) k (len (rest x)) x
  | Grp i a =>
      m a x (fun y =>
        k (mkState (rest y)
             (set_cap i (Some (firstn (len (rest x) - len (rest y)) (rest x)))
                (caps y))))
  | Bol => if len (rest x) =? len input then k x else None
  | Eol => match rest x with [] => k x | _ :: _ => None end
  end.

End Matcher.

(** The array returned by a successful [exec]: position 0 holds the whole
    match, position [i] the capture [i] ([None] for [undefined]). *)
Record result := mkResult { index : nat; array : list (option str) }.

Fixpoint exec_from (r : re) (ngroups : nat) (input s : str) : option result :=
  match m input r (mkState s (repeat None ngroups)) (fun y => Some y) with
  | Some y =>
      Some (mkResult (len input - len s)
              (Some (firstn (len s - len (rest y)) s) :: caps y))
  | None =>
      match s with
      | [] => None
      | _ :: s' => exec_from r ngroups input s'
      end
  end.

Definition ngroups (r : re) : nat := fold_right Nat.max 0 (groups r).

(** [s.match(r)] for a regular expression without flags. *)
Definition exec (r : re) (s : str) : option result :=
  exec_from r (ngroups r) s s.

Definition test (r : re) (s : str) : bool :=
  match exec r s with Some _ => true | None => false end.

(** [result[i]] *)
Definition at_ (res : result) (i : nat) : option str :=
  nth i (array res) None.

(** Character classes of the program's patterns. *)
Definition dot (c : code_unit) : bool :=
  negb (N.eqb c 10 || N.eqb c 13 || N.eqb c 8232 || N.eqb c 8233)%N.

Definition not_chr (d : code_unit) (c : code_unit) : bool := negb (N.eqb c d).

End Regex.

Import Regex.

Definition c_at : code_unit := 64%N.     (* @ *)
Definition c_slash : code_unit := 47%N.  (* / *)
Definition c_dot : code_unit := 46%N.    (* . *)

(** [/^file:/] *)
Definition re_file : re := Seq Bol (Lit (js "file:")).

(** The pattern of line 560: [^file:] followed by an optional capture of
    a greedy run of dots, up to the end of the input. *)
Definition re_file_path : re :=
  Seq Bol (Seq (Lit (js "file:")) (Seq (Opt (Grp 1 (Star (Cls dot)))) Eol)).

(** [/^.+\.(tgz|tar\.gz)$/] *)
Definition re_archive : re :=
  Seq Bol (Seq (Plus (Cls dot)) (Seq (Chr c_dot)
    (Seq (Grp 1 (Alt (Lit (js "tgz")) (Lit (js "tar.gz")))) Eol))).

(** [/^(@[^/]+\/)?([^@]+)?(@.+)?$/] *)
Definition re_package : re :=
  Seq Bol
    (Seq (Opt (Grp 1 (Seq (Chr c_at) (Seq (Plus (Cls (not_chr c_slash))) (Chr c_slash)))))
    (Seq (Opt (Grp 2 (Plus (Cls (not_chr c_at)))))
    (Seq (Opt (Grp 3 (Seq (Chr c_at) (Plus (Cls dot)))))
     Eol))).

(** [/\.iml$/] *)
Definition re_iml : re := Seq (Lit (js ".iml")) Eol.

(** [/(npm run |npm )/] *)
Definition re_npm : re := Grp 1 (Alt (Lit (js "npm run ")) (Lit (js "npm "))).

(** ** JSON values and objects

    A parsed JSON document.  A number is an IEEE 754 double; an object is
    the record of its own properties in insertion order.  The prototype of
    an object is not carried: the program reads through it nowhere, and the
    one way it has of changing it, an assignment to [__proto__], is
    accounted for in [obj_set]. *)

#[warnings="-register-all"]
Inductive JsVal :=
| JUndefined
| JNull
| JBool (b : bool)
| JNum (n : spec_float)
| JStr (s : str)
| JArr (items : list JsVal)
| JObj (fields : list (str * JsVal)).

Definition obj := list (str * JsVal).

Definition truthy (v : JsVal) : bool :=
  match v with
  | JUndefined | JNull => false
  | JBool b => b
  | JNum (S754_zero _) | JNum S754_nan => false
  | JNum _ => true
  | JStr s => truthy_str s
  | JArr _ | JObj _ => true
  end.

(** [a || b] *)
Definition js_or (a b : JsVal) : JsVal := if truthy a then a else b.

Fixpoint lookup (k : str) (o : obj) : option JsVal :=
  match o with
  | [] => None
  | (k', v) :: o' => if str_eqb k k' then Some v else lookup k o'
  end.

(** [o[k]] on an object: [undefined] when the property is absent. *)
Definition obj_get (k : str) (o : obj) : JsVal :=
  match lookup k o with Some v => v | None => JUndefined end.

(** The definition of an own property, as a computed key of an object
    literal and the spread of one make it: an existing property keeps its
    place, a new one goes last. *)
Fixpoint put_own (k : str) (v : JsVal) (o : obj) : obj :=
  match o with
  | [] => [(k, v)]
  | (k', v') :: o' =>
      if str_eqb k k' then (k', v) :: o' else (k', v') :: put_own k v o'
  end.

(** Whether the assignment [o[k] = v] ends in the [__proto__] accessor of
    [Object.prototype]: the key is [__proto__] and [o] has no own property
    of that name. *)
Definition sets_prototype (k : str) (o : obj) : bool :=
  str_eqb k (js "__proto__")
  && match lookup k o with Some _ => false | None => true end.

(** [o[k] = v] on an object whose prototype chain ends in
    [Object.prototype]: an own property is updated or added, except that
    the accessor takes the value (as the new prototype when it is an object
    or [null], and drops it otherwise) and the own properties stay as they
    are. *)
Definition obj_set (k : str) (v : JsVal) (o : obj) : obj :=
  if sets_prototype k o then o else put_own k v o.

Definition index_key (i : nat) : str :=
  js (NilZero.string_of_uint (Nat.to_uint i)).

Fixpoint index_entries (i : nat) (xs : list JsVal) : obj :=
  match xs with
  | [] => []
  | x :: xs' => (index_key i, x) :: index_entries (S i) xs'
  end.

(** The own enumerable properties of a value, as [Object.keys],
    [Object.entries] and [Object.assign] see them. *)
Definition own_entries (v : JsVal) : obj :=
  match v with
  | JObj fields => fields
  | JArr items => index_entries 0 items
  | JStr s => index_entries 0 (map (fun c => JStr [c]) s)
  | _ => []
  end.

Definition Object_keys (v : JsVal) : list str := map fst (own_entries v).

(** [Object.assign({}, v)]: every own property of [v] is assigned to the
    new object, so an entry named [__proto__] goes to the accessor. *)
Definition Object_assign_empty (v : JsVal) : obj :=
  fold_left (fun acc kv => obj_set (fst kv) (snd kv) acc) (own_entries v) [].

(** ** The process and its project directory *)

Inductive FileData :=
| Text (s : str)
| Json (o : obj).

Inductive Node :=
| File (d : FileData)
| Folder.

(** The entries of a directory, in the order [readdirSync] lists them. *)
Definition Dir := list (str * Node).

(** [proj] is the directory at [root]; [None] while it does not exist. *)
Record State := mkWorld { cwd : str; proj : option Dir }.

Inductive Error :=
| Rejected (command : str)    (* the object [{ command }] of [install] *)
| JsError (name : str).       (* an [Error] object; it has no [command] *)

Inductive Event :=
| Log (line : str)
| WriteFile (name : str) (d : FileData)
| Remove (name : str)
| RemoveRoot
| Spawn (command : str) (args : list str).

(** How a computation ends: with a value, with an exception (or a rejected
    promise) that a handler can still catch, with [process.exit], or with an
    exception raised where no handler of the program can reach it. *)
Inductive Outcome (A : Type) :=
| Ret (a : A)
| Throw (e : Error)
| Exit (code : Z)
| Uncaught (e : Error).

Arguments Ret {A} a.
Arguments Throw {A} e.
Arguments Exit {A} code.
Arguments Uncaught {A} e.

Definition M (A : Type) := State -> Outcome A * State * list Event.

Definition ret {A} (a : A) : M A := fun w => (Ret a, w, []).

Definition bind {A B} (c : M A) (f : A -> M B) : M B :=
  fun w =>
    match c w with
    | (Ret a, w1, ev1) =>
        match f a w1 with
        | (o, w2, ev2) => (o, w2, ev1 ++ ev2)
        end
    | (Throw e, w1, ev1) => (Throw e, w1, ev1)
    | (Exit n, w1, ev1) => (Exit n, w1, ev1)
    | (Uncaught e, w1, ev1) => (Uncaught e, w1, ev1)
    end.

Declare Scope js_scope.
Delimit Scope js_scope with js_m.
Notation "x <- c ;; k" := (bind c (fun x => k))
  (at level 61, c at next level, right associativity) : js_scope.
Notation "c ;; k" := (bind c (fun _ => k))
  (at level 61, right associativity) : js_scope.
Local Open Scope js_scope.

Definition throw {A} (e : Error) : M A := fun w => (Throw e, w, []).
Definition exit {A} (code : Z) : M A := fun w => (Exit code, w, []).
Definition uncaught {A} (e : Error) : M A := fun w => (Uncaught e, w, []).
Definition emit (e : Event) : M unit := fun w => (Ret tt, w, [e]).
Definition get_state : M State := fun w => (Ret w, w, []).

(** [c.catch(h)] and [try { c } catch (e) { h e }] *)
Definition catch {A} (c : M A) (h : Error -> M A) : M A :=
  fun w =>
    match c w with
    | (Throw e, w1, ev1) =>
        match h e w1 with
        | (o, w2, ev2) => (o, w2, ev1 ++ ev2)
        end
    | r => r
    end.

(** [xs.forEach(f)] and [for (const x of xs) f(x)] *)
Fixpoint forEach {A} (xs : list A) (f : A -> M unit) : M unit :=
  match xs with
  | [] => ret tt
  | x :: xs' => f x ;; forEach xs' f
  end.

(** [console.log] and [console.error]; styling by chalk is dropped. *)
Definition console_log (line : str) : M unit := emit (Log line).

Definition outcome {A} (r : Outcome A * State * list Event) : Outcome A := fst (fst r).
Definition final {A} (r : Outcome A * State * list Event) : State := snd (fst r).
Definition events {A} (r : Outcome A * State * list Event) : list Event := snd r.

Definition is_log (e : Event) : bool :=
  match e with Log _ => true | _ => false end.

Definition is_write (e : Event) : bool :=
  match e with WriteFile _ _ => true | _ => false end.

Definition nl : str := [10%N].

Fixpoint join (sep : str) (xs : list str) : str :=
  match xs with
  | [] => []
  | [x] => x
  | x :: xs' => x ++ sep ++ join sep xs'
  end.

(** *** File-system calls on the project directory *)

Definition ENOENT : Error := JsError (js "ENOENT").
Definition TypeError : Error := JsError (js "TypeError").
Definition ReferenceError : Error := JsError (js "ReferenceError").
Definition MODULE_NOT_FOUND : Error := JsError (js "MODULE_NOT_FOUND").

(** [fs.readdirSync(root)] *)
Definition readdirSync : M (list str) :=
  fun w =>
    match proj w with
    | Some d => (Ret (map fst d), w, [])
    | None => (Throw ENOENT, w, [])
    end.

Fixpoint find_entry (name : str) (d : Dir) : option Node :=
  match d with
  | [] => None
  | (n, x) :: d' => if str_eqb name n then Some x else find_entry name d'
  end.

Definition remove_entry (name : str) (d : Dir) : Dir :=
  filter (fun e => negb (str_eqb (fst e) name)) d.

(** [fs.removeSync(path.join(root, name))]; a missing entry is no error. *)
Definition removeSync (name : str) : M unit :=
  fun w =>
    (Ret tt, mkWorld (cwd w) (option_map (remove_entry name) (proj w)), [Remove name]).

(** [fs.removeSync(root)] *)
Definition removeRoot : M unit :=
  fun w => (Ret tt, mkWorld (cwd w) None, [RemoveRoot]).

Fixpoint put_entry (name : str) (x : Node) (d : Dir) : Dir :=
  match d with
  | [] => [(name, x)]
  | (n, y) :: d' =>
      if str_eqb name n then (n, x) :: d' else (n, y) :: put_entry name x d'
  end.

(** [fs.writeFileSync(path.join(root, name), data)] *)
Definition writeFileSync (name : str) (data : FileData) : M unit :=
  fun w =>
    match proj w with
    | Some d =>
        (Ret tt, mkWorld (cwd w) (Some (put_entry name (File data) d)),
         [WriteFile name data])
    | None => (Throw ENOENT, w, [])
    end.


(** [process.chdir(p)] *)
Definition chdir (p : str) : M unit :=
  fun w => (Ret tt, mkWorld p (proj w), []).

(** [fs.lstatSync(path.join(root, name)).isDirectory()] *)
Definition lstat_isDirectory (name : str) : M bool :=
  fun w =>
    match proj w with
    | Some d =>
        match find_entry name d with
        | Some Folder => (Ret true, w, [])
        | Some (File _) => (Ret false, w, [])
        | None => (Throw ENOENT, w, [])
        end
    | None => (Throw ENOENT, w, [])
    end.

(** ** What the program takes from its platform

    The npm name validator, the path functions of Node, the child
    processes started through cross-spawn and the probes of the machine
    are not part of the repository; the program is modelled over any
    implementation of them. *)

Record Validation := mkValidation {
  validForNewPackages : bool;
  errors : option (list str);
  warnings : option (list str)
}.

Class Host := {
  (** [require('validate-npm-package-name')] *)
  validateProjectName : str -> Validation;
  (** [path.resolve(...segments)] under the given working directory *)
  path_resolve : str -> list str -> str;
  (** [path.basename] *)
  path_basename : str -> str;
  (** the names that lead from the directory at the first path down to the
      second path, when the second lies strictly below the first *)
  path_below : str -> str -> option (list str);
  (** the exit status of the child started by [sync(command, args)]
      ([None] for [null]) and the project directory it leaves behind *)
  spawn_sync : str -> list str -> State -> option Z * option Dir;
  (** the joined output of [npm config list]; [None] when the call throws *)
  npm_config_list : State -> option str;
  (** [process.platform === 'win32'] *)
  platform_win32 : bool;
  (** the result of the test [!semver.satisfies(semver.coerce(process.version), '>=12')] *)
  node_version_unsupported : bool;
  (** [hasMinNpm] and [npmVersion] as [checkNpmVersion] returns them *)
  npm_version_info : bool * option str;
  (** whether [dns.lookup('registry.yarnpkg.com')] reports an error *)
  dns_lookup_fails : State -> bool;
  (** lines 608-617 of [checkNodeVersion]: a manifest under [node_modules]
      exists and its [engines.node] range rejects the running Node *)
  engines_unsatisfied : State -> bool;
  (** [process.version], and the [engines.node] of that manifest as the
      format [%s] of [console.error] prints it *)
  process_version : str;
  engines_node : State -> str;
  (** [require.resolve] of the template package followed by the read of its
      [template.json]: [None] when the package cannot be resolved,
      [Some None] when it has no [template.json] *)
  template_json : str -> State -> option (option JsVal);
  (** lines 439-541 of [initializeTemplate]: the README, the copy of the
      template's files and the installation of its dependencies *)
  initializeTemplate_files :
    str -> str -> bool -> str -> str -> bool -> JsVal -> M unit
}.

Definition dq : str := [34%N].

Definition EEXIST : Error := JsError (js "EEXIST").
Definition ENOTDIR : Error := JsError (js "ENOTDIR").

Definition or_empty (o : option str) : str :=
  match o with Some s => s | None => [] end.

Definition or_nil (o : option (list str)) : list str :=
  match o with Some l => l | None => [] end.

(** Order of [Array.prototype.sort] without a comparator: by code units. *)
Fixpoint str_leb (a b : str) : bool :=
  match a, b with
  | [], _ => true
  | _ :: _, [] => false
  | x :: a', y :: b' => N.ltb x y || (N.eqb x y && str_leb a' b')
  end.

Fixpoint insert_sorted (x : str) (xs : list str) : list str :=
  match xs with
  | [] => [x]
  | y :: xs' => if str_leb x y then x :: y :: xs' else y :: insert_sorted x xs'
  end.

Definition sort (xs : list str) : list str := fold_right insert_sorted [] xs.

(** [s.split(sep)] for a separator of one code unit *)
Fixpoint split_on (sep : code_unit) (s : str) : list str :=
  match s with
  | [] => [[]]
  | c :: s' =>
      if N.eqb c sep then [] :: split_on sep s'
      else match split_on sep s' with
           | [] => [[c]]
           | l :: ls => (c :: l) :: ls
           end
  end.

(** [s.replace(r, by)] for a pattern without flags: the first match only *)
Definition replace_first (r : re) (by_ : str) (s : str) : str :=
  match exec r s with
  | None => s
  | Some res =>
      firstn (index res) s ++ by_ ++
      skipn (index res + len (or_empty (at_ res 0))) s
  end.

Section Program.

Context {host : Host}.

(** [fs.ensureDirSync(dir)] of fs-extra, which creates [dir] and its missing
    parents, seen from the directory at [root].  [dir] is resolved against
    the working directory: it may name [root] itself, a place below [root],
    which then gains the entry that leads there, or a place elsewhere. *)
Definition ensureDirSync (root dir : str) : M unit :=
  fun w =>
    let target := path_resolve (cwd w) [dir] in
    if str_eqb target root then
      match proj w with
      | Some _ => (Ret tt, w, [])
      | None => (Ret tt, mkWorld (cwd w) (Some []), [])
      end
    else
      match path_below root target with
      | Some (entry :: deeper) =>
          match proj w with
          | Some d =>
              match find_entry entry d with
              | Some Folder => (Ret tt, w, [])
              | Some (File _) =>
                  (Throw (match deeper with [] => EEXIST | _ => ENOTDIR end), w, [])
              | None =>
                  (Ret tt, mkWorld (cwd w) (Some (put_entry entry Folder d)), [])
              end
          | None => (Ret tt, mkWorld (cwd w) (Some [(entry, Folder)]), [])
          end
      | _ => (Ret tt, w, [])
      end.

(** *** [checkAppName], util/index.js lines 12-46 *)
Definition checkAppName (appName : str) : M unit :=
  let validationResult := validateProjectName appName in
  (if negb (validForNewPackages validationResult) then
     console_log (js "Cannot create a project named " ++ dq ++ appName ++ dq ++
                  js " because of npm naming restrictions:" ++ nl) ;;
     forEach (or_nil (errors validationResult) ++ or_nil (warnings validationResult))
       (fun error => console_log (js "  * " ++ error)) ;;
     console_log (nl ++ js "Please choose a different project name.") ;;
     exit 1
   else ret tt) ;;
  let dependencies := sort [js "@babel/core"; js "@babel/preset-env"] in
  if arr_includes appName dependencies then
    console_log
      (js "Cannot create a project named " ++ dq ++ appName ++ dq ++
       js " because a dependency with the same name exists." ++ nl ++
       js "Due to the way npm works, the following names are not allowed:" ++ nl ++ nl ++
       join nl (map (fun depName => js "  " ++ depName) dependencies) ++
       nl ++ nl ++ js "Please choose a different project name.") ;;
    exit 1
  else ret tt.

(** *** [isSafeToCreateProjectIn], util/index.js lines 71-141 *)
Definition validFiles : list str :=
  [ js ".DS_Store"; js ".git"; js ".gitattributes"; js ".gitignore";
    js ".gitlab-ci.yml"; js ".hg"; js ".hgcheck"; js ".hgignore"; js ".idea";
    js ".npmignore"; js ".travis.yml"; js "docs"; js "LICENSE"; js "README.md";
    js "mkdocs.yml"; js "Thumbs.db" ].

Definition errorLogFilePatterns : list str :=
  [ js "npm-debug.log"; js "yarn-error.log"; js "yarn-debug.log" ].

Definition isErrorLog (file : str) : bool :=
  existsb (fun pattern => startsWith pattern file) errorLogFilePatterns.

Definition conflicts_of (files : list str) : list str :=
  filter (fun file => negb (isErrorLog file))
    (filter (fun file => negb (test re_iml file))
       (filter (fun file => negb (arr_includes file validFiles)) files)).

Definition isSafeToCreateProjectIn (root name : str) : M bool :=
  files <- readdirSync ;;
  let conflicts := conflicts_of files in
  if 0 <? List.length conflicts then
    console_log (js "The directory " ++ name ++
                 js " contains files that could conflict:") ;;
    console_log [] ;;
    forEach conflicts (fun file =>
      catch
        (isDir <- lstat_isDirectory file ;;
         if isDir then console_log (js "  " ++ file ++ js "/")
         else console_log (js "  " ++ file))
        (fun e => console_log (js "  " ++ file))) ;;
    console_log [] ;;
    console_log (js "Either try using a new directory name, or remove the files listed above.") ;;
    ret false
  else
    files' <- readdirSync ;;
    forEach files' (fun file =>
      if isErrorLog file then removeSync file else ret tt) ;;
    ret true.

(** [sync(command, args, { stdio: 'inherit' })] *)
Definition sync (command : str) (args : list str) : M (option Z) :=
  fun w =>
    let '(status, d) := spawn_sync command args w in
    (Ret status, mkWorld (cwd w) d, [Spawn command args]).

(** *** [canNpmReadCWD], util/index.js lines 143-192 *)
Definition canNpmReadCWD : M bool :=
  w <- get_state ;;
  let cwd_ := cwd w in
  emit (Spawn (js "npm") [js "config"; js "list"]) ;;
  match npm_config_list w with
  | None => ret false
  | Some childOutput =>
      let lines := split_on 10%N childOutput in
      let prefix := js "; cwd = " in
      match find (startsWith prefix) lines with
      | None => ret false
      | Some line =>
          let npmCWD := skipn (List.length prefix) line in
          if str_eqb npmCWD cwd_ then ret true
          else
            console_log
              (js "Could not start an npm process in the right directory." ++ nl ++ nl ++
               js "The current directory is: " ++ cwd_ ++ nl ++
               js "However, a newly started npm process runs in: " ++ npmCWD ++ nl ++ nl ++
               js "This is probably caused by a misconfigured system terminal shell.") ;;
            (if platform_win32 then
               console_log
                 (js "On Windows, this can usually be fixed by running:" ++ nl ++ nl ++
                  js "  reg delete " ++ dq ++ js "HKCU\Software\Microsoft\Command Processor" ++ dq ++
                  js " /v AutoRun /f" ++ nl ++
                  js "  reg delete " ++ dq ++ js "HKLM\Software\Microsoft\Command Processor" ++ dq ++
                  js " /v AutoRun /f" ++ nl ++ nl ++
                  js "Try to run the above two lines in the terminal." ++ nl ++
                  js "To learn more about this problem, read: https://blogs.msdn.microsoft.com/oldnewthing/20071121-00/?p=24433/")
             else ret tt) ;;
            ret false
      end
  end.

(** *** [install], util/index.js lines 194-247 *)
Definition install (root : str) (isYarn : bool) (dependencies : list str)
    (verbose isOnline : bool) : M unit :=
  ca <-
    (if isYarn then
       let args := [js "add"; js "--exact"] in
       let args := if negb isOnline then args ++ [js "--offline"] else args in
       let args := args ++ dependencies in
       let args := args ++ [js "--cwd"] in
       let args := args ++ [root] in
       (if negb isOnline then
          console_log (js "You appear to be offline.") ;;
          console_log (js "Falling back to the local Yarn cache.") ;;
          console_log []
        else ret tt) ;;
       ret (js "yarnpkg", args)
     else
       ret (js "npm",
            [js "install"; js "--no-audit"; js "--save-exact"; js "--loglevel"; js "error"]
              ++ dependencies)) ;;
  let command := fst ca in
  let args := snd ca in
  let args := if (verbose : bool) then args ++ [js "--verbose"] else args in
  status <- sync command args ;;
  match status with
  | Some 0%Z => ret tt
  | _ => throw (Rejected (command ++ js " " ++ join (js " ") args))
  end.

(** *** [getTemplateInstallPackage], util/index.js lines 554-599 *)

(** The initial value of [templateToInstall], line 555. *)
Definition defaultTemplate : str := js "@hackermans/cba-template".

(** The test of lines 577-578. *)
Definition has_template_prefix (templateToInstall templateName : str) : bool :=
  str_eqb templateName templateToInstall
  || startsWith (templateToInstall ++ js "-") templateName.

Definition getTemplateInstallPackage (template : option str)
    (originalDirectory : str) : M str :=
  let templateToInstall := defaultTemplate in
  match template with
  | None => ret templateToInstall
  | Some template =>
      if negb (truthy_str template) then ret templateToInstall
      else if test re_file template then
        match exec re_file_path template with
        | None => throw TypeError            (* [null[1]] *)
        | Some fileMatch =>
            match at_ fileMatch 1 with
            | None => throw TypeError        (* [path.resolve] refuses [undefined] *)
            | Some p =>
                w <- get_state ;;
                ret (js "file:" ++ path_resolve (cwd w) [originalDirectory; p])
            end
        end
      else if includes (js "://") template || test re_archive template then
        ret template
      else
        match exec re_package template with
        | None => throw TypeError            (* [packageMatch[1]] on [null] *)
        | Some packageMatch =>
            let scope := or_empty (at_ packageMatch 1) in
            let templateName := or_empty (at_ packageMatch 2) in
            let version := or_empty (at_ packageMatch 3) in
            if has_template_prefix templateToInstall templateName then
              ret (scope ++ templateName ++ version)
            else if truthy_str version && negb (truthy_str scope)
                    && negb (truthy_str templateName) then
              ret (version ++ js "/" ++ templateToInstall)
            else
              ret (scope ++ templateToInstall ++ js "-" ++ templateName ++ version)
        end
  end.

(** *** [checkIfOnline], util/index.js lines 646-667

    With Yarn and a failed lookup the callback evaluates [getProxy()],
    which this module never defines. *)
Definition checkIfOnline (useYarn : bool) : M bool :=
  if negb useYarn then ret true
  else
    w <- get_state ;;
    if dns_lookup_fails w then uncaught ReferenceError else ret true.

(** *** [checkNodeVersion], util/index.js lines 601-629 *)
Definition checkNodeVersion : M unit :=
  w <- get_state ;;
  if engines_unsatisfied w then
    console_log (js "You are running Node " ++ process_version ++ js "." ++ nl ++
                 js "Make Babel requires Node " ++ engines_node w ++
                 js " or higher. " ++ nl ++
                 js "Please update your version of Node.") ;;
    exit 1
  else ret tt.

(** *** [initializeTemplate], util/index.js lines 333-542 *)
Definition templatePackageBlacklist : list str :=
  [ js "name"; js "version"; js "description"; js "keywords"; js "bugs";
    js "license"; js "author"; js "contributors"; js "files"; js "browser";
    js "bin"; js "man"; js "directories"; js "repository";
    js "peerDependencies"; js "bundledDependencies"; js "optionalDependencies";
    js "engineStrict"; js "os"; js "cpu"; js "preferGlobal"; js "private";
    js "publishConfig" ].

Definition templatePackageToMerge : list str :=
  [ js "dependencies"; js "scripts" ].

(** [v[k]]: reading a property of [null] or [undefined] throws. *)
Definition get_prop (v : JsVal) (k : str) : option JsVal :=
  match v with
  | JNull | JUndefined => None
  | _ => Some (obj_get k (own_entries v))
  end.


(** Lines 421-427: [entries.reduce(...)] with [value.replace] on every
    script; a script that is no string has no [replace] method. *)
Fixpoint yarn_scripts (entries : obj) (acc : obj) : option obj :=
  match entries with
  | [] => Some acc
  | (key, JStr value) :: entries' =>
      yarn_scripts entries'
        (put_own key (JStr (replace_first re_npm (js "yarn ") value)) acc)
  | (_, _) :: _ => None
  end.

(** Lines 403-432: the own properties of [appPackage] when line 434 writes
    it; [None] stands for the [TypeError] of a script without [replace]. *)
Definition mergeTemplatePackage (appPackage : obj) (templatePackage : JsVal)
    (isYarn : bool) : option obj :=
  let templatePackageToReplace :=
    filter (fun key => negb (arr_includes key templatePackageBlacklist)
                       && negb (arr_includes key templatePackageToMerge))
           (Object_keys templatePackage) in
  let appPackage :=
    obj_set (js "dependencies")
      (js_or (obj_get (js "dependencies") appPackage) (JObj [])) appPackage in
  let templateScripts :=
    js_or (obj_get (js "scripts") (own_entries templatePackage)) (JObj []) in
  let appPackage :=
    obj_set (js "scripts") (JObj (Object_assign_empty templateScripts)) appPackage in
  match
    (if isYarn then
       match yarn_scripts (own_entries (obj_get (js "scripts") appPackage)) [] with
       | Some scripts => Some (obj_set (js "scripts") (JObj scripts) appPackage)
       | None => None
       end
     else Some appPackage)
  with
  | None => None
  | Some appPackage =>
      Some (fold_left
              (fun acc key => obj_set key (obj_get key (own_entries templatePackage)) acc)
              templatePackageToReplace appPackage)
  end.

(** [require(path.join(appPath, 'package.json'))] *)
Definition require_package_json : M obj :=
  fun w =>
    match proj w with
    | Some d =>
        match find_entry (js "package.json") d with
        | Some (File (Json o)) => (Ret o, w, [])
        | _ => (Throw MODULE_NOT_FOUND, w, [])
        end
    | None => (Throw MODULE_NOT_FOUND, w, [])
    end.

Definition initializeTemplate (appPath appName : str) (verbose : bool)
    (originalDirectory templateName : str) (isYarn : bool) : M unit :=
  appPackage <- require_package_json ;;
  if negb (truthy_str templateName) then
    console_log [] ;;
    console_log (js "A template was not provided.") ;;
    console_log (js "Please note that global installs of make-babel are not supported.") ;;
    console_log (js "You can fix this by running npm uninstall -g @hackermans/make-babel or yarn global remove @hackermans/make-babel and using npx @hackermans/make-babel instead.") ;;
    ret tt
  else
    w <- get_state ;;
    match template_json templateName w with
    | None => throw MODULE_NOT_FOUND
    | Some found =>
        let templateJson := match found with Some v => v | None => JObj [] end in
        match get_prop templateJson (js "package") with
        | None => throw TypeError
        | Some package =>
            let templatePackage := js_or package (JObj []) in
            match mergeTemplatePackage appPackage templatePackage isYarn with
            | None => throw TypeError
            | Some appPackage' =>
                writeFileSync (js "package.json") (Json appPackage') ;;
                initializeTemplate_files appPath appName verbose
                  originalDirectory templateName isYarn templatePackage
            end
        end
    end.

(** *** [run], util/index.js lines 249-331 *)
Definition knownGeneratedFiles : list str :=
  [ js "package.json"; js "node_modules" ].

Definition error_text (e : Error) : str :=
  match e with
  | Rejected command => command
  | JsError name => name
  end.

Definition reason_command (reason : Error) : option str :=
  match reason with
  | Rejected command => Some command
  | JsError _ => None
  end.

Definition run (root appName : str) (verbose : bool) (originalDirectory : str)
    (template : option str) (isYarn : bool) : M unit :=
  templateToInstall <- getTemplateInstallPackage template originalDirectory ;;
  let allDependencies := [js "@babel/core"; js "@babel/preset-env"] in
  console_log (js "Installing packages. This might take a couple of minutes.") ;;
  catch
    (let templateInfo := templateToInstall in
     isOnline <- checkIfOnline isYarn ;;
     let allDependencies := allDependencies ++ [templateToInstall] in
     console_log (js "Installing @babel/core, @babel/preset-env, with " ++ templateInfo) ;;
     console_log [] ;;
     install root isYarn allDependencies verbose isOnline ;;
     let templateName := templateInfo in
     checkNodeVersion ;;
     initializeTemplate root appName verbose originalDirectory templateName isYarn)
    (fun reason =>
       console_log [] ;;
       console_log (js "Aborting installation.") ;;
       (if truthy_str (or_empty (reason_command reason)) then
          console_log (js "  " ++ or_empty (reason_command reason) ++ js " has failed.")
        else
          console_log (js "Unexpected error. Please report it as a bug:") ;;
          console_log (error_text reason)) ;;
       console_log [] ;;
       currentFiles <- readdirSync ;;
       forEach currentFiles (fun file =>
         forEach knownGeneratedFiles (fun fileToMatch =>
           if str_eqb file fileToMatch then
             console_log (js "Deleting generated file... " ++ file) ;;
             removeSync file
           else ret tt)) ;;
       remainingFiles <- readdirSync ;;
       (if List.length remainingFiles =? 0 then
          w <- get_state ;;
          console_log (js "Deleting " ++ appName ++ js "/ from " ++
                       path_resolve (cwd w) [root; js ".."]) ;;
          chdir (path_resolve (cwd w) [root; js ".."]) ;;
          removeRoot
        else ret tt) ;;
       console_log (js "Done.") ;;
       exit 1).

(** *** [createApp], index.js lines 71-126

    Line 88 hands [appName], the last segment of [root], to
    [ensureDirSync], which resolves it against the working directory; the
    check of line 89 and the write of line 100 are on [root]. *)
Definition createApp (name : str) (verbose : bool) (template : option str)
    (isYarn : bool) : M unit :=
  (if node_version_unsupported then
     console_log (js "Unsupported Node version. Please upgrade to Node 12 or higher for a better experience.")
   else ret tt) ;;
  w <- get_state ;;
  let root := path_resolve (cwd w) [name] in
  let appName := path_basename root in
  checkAppName appName ;;
  ensureDirSync root appName ;;
  safe <- isSafeToCreateProjectIn root appName ;;
  (if negb safe then exit 1 else ret tt) ;;
  console_log (js "Using " ++ (if isYarn then js "Yarn" else js "NPM")) ;;
  console_log (nl ++ js "Creating a new Babel App in " ++ root ++ js "." ++ nl) ;;
  let packageJson :=
    [ (js "name", JStr appName); (js "version", JStr (js "1.0.0"));
      (js "private", JBool true) ] in
  writeFileSync (js "package.json") (Json packageJson) ;;
  w' <- get_state ;;
  let originalDirectory := cwd w' in
  chdir root ;;
  npmOk <- (if isYarn then ret true else canNpmReadCWD) ;;
  (if negb isYarn && negb npmOk then exit 1 else ret tt) ;;
  (if negb isYarn then
     let npmInfo := npm_version_info in
     if negb (fst npmInfo) then
       match snd npmInfo with
       | Some npmVersion =>
           if truthy_str npmVersion then
             console_log
               (js "You are using npm " ++ npmVersion ++
                js " so the project will be bootstrapped with an old unsupported version of tools." ++ nl ++ nl ++
                js "Please update to npm 6 or higher for a better, fully supported experience." ++ nl)
           else ret tt
       | None => ret tt
       end
     else ret tt
   else ret tt) ;;
  run root appName verbose originalDirectory template isYarn.

End Program.

(** ** The identifier forms [NAME], [@SCOPE/NAME], [NAME@VERSION] and
    [@SCOPE/NAME@VERSION] *)

Definition render_scope (scope : option str) : str :=
  match scope with
  | Some s => c_at :: s ++ [c_slash]
  | None => []
  end.

Definition render_version (version : option str) : str :=
  match version with
  | Some v => c_at :: v
  | None => []
  end.

Definition package_id (scope : option str) (name : str) (version : option str) : str :=
  render_scope scope ++ name ++ render_version version.

(** A part is not empty and stays within the characters its place allows:
    no slash in a scope, no at-sign in a name, no line terminator in a
    version. *)
Definition wf_part (p : code_unit -> bool) (s : str) : bool :=
  truthy_str s && forallb p s.

Definition wf_opt (p : code_unit -> bool) (o : option str) : bool :=
  match o with
  | Some s => wf_part p s
  | None => true
  end.

Definition wf_id (scope : option str) (name : str) (version : option str) : bool :=
  wf_opt (not_chr c_slash) scope && wf_part (not_chr c_at) name && wf_opt dot version.

(** The guards of lines 557 and 563-564 that lead to the package-name branch. *)
Definition package_name_branch (template : str) : bool :=
  negb (test re_file template)
  && negb (includes (js "://") template || test re_archive template).

(** The prefix as the comments of lines 569-592 name it, and the
    identifier they describe for a name that does not carry it: the scope,
    the prefix, a dash and the name, the version. *)
Definition conventionalPrefix : str := js "cba-template".

Definition described_package (scope : option str) (name : str)
    (version : option str) : str :=
  render_scope scope ++ conventionalPrefix ++ js "-" ++ name ++ render_version version.

(** ** A host for running the model on examples *)

Definition sample_resolve (cwd : str) (segments : list str) : str :=
  fold_left
    (fun acc seg => if startsWith (js "/") seg then seg else acc ++ js "/" ++ seg)
    segments cwd.

Definition sample_basename (p : str) : str := last (split_on c_slash p) [].

Definition sample_below (root target : str) : option (list str) :=
  if startsWith (root ++ js "/") target then
    Some (split_on c_slash (skipn (len root + 1) target))
  else None.

Definition sample_validate (name : str) : Validation :=
  if truthy_str name && negb (existsb (N.eqb 32) name) then
    mkValidation true None None
  else
    mkValidation false
      (Some [js "name can only contain URL-friendly characters"]) None.

(** The package manager of this host creates [node_modules] and ends with
    the given status; the template it installs holds the given
    [template.json]. *)
Definition sample_host_with (status : option Z) (templateJson : option JsVal) : Host := {|
  validateProjectName := sample_validate;
  path_resolve := sample_resolve;
  path_basename := sample_basename;
  path_below := sample_below;
  spawn_sync := fun _ _ w =>
    (status, option_map (put_entry (js "node_modules") Folder) (proj w));
  npm_config_list := fun w => Some (js "; cwd = " ++ cwd w);
  platform_win32 := false;
  node_version_unsupported := false;
  npm_version_info := (true, Some (js "10.2.0"));
  dns_lookup_fails := fun _ => false;
  engines_unsatisfied := fun _ => false;
  process_version := js "v16.13.0";
  engines_node := fun _ => js ">=12";
  template_json := fun _ _ => Some templateJson;
  initializeTemplate_files := fun _ _ _ _ _ _ _ => ret tt
|}.

Definition sample_host (status : option Z) : Host := sample_host_with status None.




(** A manifest that holds a key [__proto__] of its own. *)
Definition proto_manifest : obj :=
  [ (js "name", JStr (js "my-app")); (js "__proto__", JStr (js "own")) ].

(** A [template.json] whose package fragment has a key [__proto__]. *)
Definition proto_template_json : JsVal :=
  JObj [ (js "package",
          JObj [ (js "main", JStr (js "index.js"));
                 (js "__proto__", JObj [ (js "polluted", JBool true) ]) ]) ].

Definition home : str := js "/home/dev".

Definition sample_root : str := js "/home/dev/my-app".

Definition sample_manifest : obj :=
  [ (js "name", JStr (js "my-app")); (js "version", JStr (js "1.0.0"));
    (js "private", JBool true) ].

(** A project directory as [createApp] hands it to [run]. *)
Definition sample_project : Dir :=
  [ (js "package.json", File (Json sample_manifest));
    (js "README.md", File (Text (js "# my-app"))) ].

Definition allowed_dir : Dir :=
  [ (js ".git", Folder); (js "README.md", File (Text (js "# my-app"))) ].

Definition conflicting_dir : Dir :=
  [ (js ".git", Folder); (js "src", Folder) ].

Definition module_dir : Dir :=
  [ (js "app.iml", File (Text [])) ].

Definition sample_dir : Dir :=
  [ (js ".git", Folder);
    (js "npm-debug.log.123", File (Text (js "old log")));
    (js "README.md", File (Text (js "# my-app"))) ].

(** *** [isBabelInstalled], util/index.js lines 546-552

    The first test is [typeof ... !== 'undefined']; the second compares the
    value itself with the string ['undefined']. *)
Definition isBabelInstalled (appPackage : obj) : bool :=
  let dependencies := js_or (obj_get (js "dependencies") appPackage) (JObj []) in
  negb (match obj_get (js "@babel/core") (own_entries dependencies) with
        | JUndefined => true
        | _ => false
        end)
  && negb (match obj_get (js "@babel/preset-env") (own_entries dependencies) with
           | JStr s => str_eqb s (js "undefined")
           | _ => false
           end).

(** A host whose probes can be set one by one: the status of the package
    manager, what [require.resolve] finds of the template, whether
    [npm config list] answers, whether the registry lookup fails and whether
    the engine check rejects the running Node. *)
Definition probe_host (status : option Z) (templateJson : option (option JsVal))
    (npmAnswers dnsFails enginesBad : bool) : Host := {|
  validateProjectName := sample_validate;
  path_resolve := sample_resolve;
  path_basename := sample_basename;
  path_below := sample_below;
  spawn_sync := fun _ _ w =>
    (status, option_map (put_entry (js "node_modules") Folder) (proj w));
  npm_config_list := fun w =>
    if npmAnswers then Some (js "; cwd = " ++ cwd w) else None;
  platform_win32 := false;
  node_version_unsupported := false;
  npm_version_info := (true, Some (js "10.2.0"));
  dns_lookup_fails := fun _ => dnsFails;
  engines_unsatisfied := fun _ => enginesBad;
  process_version := js "v16.13.0";
  engines_node := fun _ => if enginesBad then js ">=18" else js ">=12";
  template_json := fun _ _ => templateJson;
  initializeTemplate_files := fun _ _ _ _ _ _ _ => ret tt
|}.

Definition babel_manifest : obj :=
  [ (js "name", JStr (js "my-app"));
    (js "dependencies", JObj [ (js "@babel/core", JStr (js "7.14.0")) ]) ].

Definition sample_template_package : JsVal :=
  JObj [ (js "name", JStr (js "cba-template"));
         (js "main", JStr (js "index.js"));
         (js "scripts", JObj [ (js "start", JStr (js "npm run dev")) ]) ].

(* ================================================================== *)
(** * Properties *)

(** ** The monad *)

Lemma bind_Ret {A B} (c : M A) (f : A -> M B) w a w1 ev1 :
  c w = (Ret a, w1, ev1) ->
  bind c f w = (outcome (f a w1), final (f a w1), ev1 ++ events (f a w1)).
Proof.
  intros H. unfold bind. rewrite H. now destruct (f a w1) as [[o w2] ev2].
Qed.

Lemma bind_Exit {A B} (c : M A) (f : A -> M B) w n w1 ev1 :
  c w = (Exit n, w1, ev1) -> bind c f w = (Exit n, w1, ev1).
Proof. intros H. unfold bind. now rewrite H. Qed.

Lemma bind_Throw {A B} (c : M A) (f : A -> M B) w e w1 ev1 :
  c w = (Throw e, w1, ev1) -> bind c f w = (Throw e, w1, ev1).
Proof. intros H. unfold bind. now rewrite H. Qed.

Lemma catch_Throw {A} (c : M A) (h : Error -> M A) w e w1 ev1 :
  c w = (Throw e, w1, ev1) ->
  catch c h w = (outcome (h e w1), final (h e w1), ev1 ++ events (h e w1)).
Proof.
  intros H. unfold catch. rewrite H. now destruct (h e w1) as [[o w2] ev2].
Qed.

Lemma catch_Ret {A} (c : M A) (h : Error -> M A) w a w1 ev1 :
  c w = (Ret a, w1, ev1) -> catch c h w = (Ret a, w1, ev1).
Proof. intros H. unfold catch. now rewrite H. Qed.

(** One step of a computation whose first action runs by evaluation. *)
Ltac run_step := erewrite bind_Ret by reflexivity.

Lemma triple_eta {A} (r : Outcome A * State * list Event) :
  (outcome r, final r, events r) = r.
Proof. now destruct r as [[o w] ev]. Qed.

(** ** Strings *)

Lemma str_eqb_eq (a b : str) : str_eqb a b = true <-> a = b.
Proof.
  revert b; induction a as [|x a IH]; intros [|y b]; simpl; split;
    try congruence; try discriminate.
  - intros H. apply andb_true_iff in H as [Hx Hab].
    apply N.eqb_eq in Hx. apply IH in Hab. congruence.
  - intros H. inversion H; subst. rewrite N.eqb_refl. simpl. now apply IH.
Qed.

Lemma str_eqb_refl (a : str) : str_eqb a a = true.
Proof. now apply str_eqb_eq. Qed.

Lemma str_eqb_neq (a b : str) : str_eqb a b = false <-> a <> b.
Proof.
  split.
  - intros H E. apply str_eqb_eq in E. congruence.
  - intros H. destruct (str_eqb a b) eqn:E; [|reflexivity].
    apply str_eqb_eq in E. contradiction.
Qed.

Lemma arr_includes_In (x : str) (xs : list str) :
  arr_includes x xs = true <-> In x xs.
Proof.
  unfold arr_includes. rewrite existsb_exists. split.
  - intros (y & Hy & E). apply str_eqb_eq in E. now subst.
  - intros H. exists x. split; [assumption|apply str_eqb_refl].
Qed.

Lemma arr_includes_not_In (x : str) (xs : list str) :
  arr_includes x xs = false <-> ~ In x xs.
Proof.
  rewrite <- arr_includes_In. destruct (arr_includes x xs); split; congruence.
Qed.

Lemma firstn_app_exact (a b : str) : firstn (len (a ++ b) - len b) (a ++ b) = a.
Proof.
  rewrite length_app, Nat.add_sub.
  rewrite firstn_app, Nat.sub_diag, firstn_all. simpl. apply app_nil_r.
Qed.

(** ** The matcher on runs of a character class *)

Section StarRuns.

Variable input : str.
Variable p : code_unit -> bool.

Lemma star_cls_nil k cs :
  m input (Star (Cls p)) (mkState [] cs) k = k (mkState [] cs).
Proof. reflexivity. Qed.

Lemma star_cls_stop k c s cs :
  p c = false ->
  m input (Star (Cls p)) (mkState (c :: s) cs) k = k (mkState (c :: s) cs).
Proof.
  intros Hc. simpl. rewrite Hc. reflexivity.
Qed.

Lemma star_cls_step k c s cs :
  p c = true ->
  m input (Star (Cls p)) (mkState (c :: s) cs) k =
  orelse (m input (Star (Cls p)) (mkState s cs) k) (k (mkState (c :: s) cs)).
Proof.
  intros Hc. simpl. rewrite Hc.
  unfold consumed. simpl.
  replace (len s =? S (len s)) with false
    by (symmetry; apply Nat.eqb_neq; lia).
  reflexivity.
Qed.

(** A maximal run of the class is consumed whole when the continuation
    accepts what follows it. *)
Lemma star_cls_run k xs ys cs z :
  Forall (fun c => p c = true) xs ->
  match ys with [] => True | c :: _ => p c = false end ->
  k (mkState ys cs) = Some z ->
  m input (Star (Cls p)) (mkState (xs ++ ys) cs) k = Some z.
Proof.
  intros Hxs Hstop Hk. induction Hxs as [|c xs Hc _ IH].
  - change ([] ++ ys) with ys.
    destruct ys as [|c ys]; [now rewrite star_cls_nil|].
    now rewrite star_cls_stop.
  - change ((c :: xs) ++ ys) with (c :: xs ++ ys).
    rewrite star_cls_step by assumption. now rewrite IH.
Qed.

Lemma plus_cls_run k c xs ys cs z :
  p c = true ->
  Forall (fun c => p c = true) xs ->
  match ys with [] => True | c :: _ => p c = false end ->
  k (mkState ys cs) = Some z ->
  m input (Plus (Cls p)) (mkState (c :: xs ++ ys) cs) k = Some z.
Proof.
  intros Hc Hxs Hstop Hk. unfold Plus.
  change (m input (Seq (Cls p) (Star (Cls p))) (mkState (c :: xs ++ ys) cs) k)
    with (if p c then m input (Star (Cls p)) (mkState (xs ++ ys) cs) k else None).
  rewrite Hc. now apply star_cls_run.
Qed.

End StarRuns.

(** ** The package-name pattern on well-formed identifiers *)

Section MatcherEquations.

Variable input : str.

Lemma m_Seq a b x k :
  m input (Seq a b) x k = m input a x (fun y => m input b y k).
Proof. reflexivity. Qed.

Lemma m_Opt a x k :
  m input (Opt a) x k =
  orelse (m input a (clear (groups a) x)
            (fun y => if consumed x y then k y else None))
         (k x).
Proof. reflexivity. Qed.

Lemma m_Grp i a x k :
  m input (Grp i a) x k =
  m input a x (fun y =>
    k (mkState (rest y)
         (set_cap i (Some (firstn (len (rest x) - len (rest y)) (rest x))) (caps y)))).
Proof. reflexivity. Qed.

Lemma m_Chr_hit c t cs k :
  m input (Chr c) (mkState (c :: t) cs) k = k (mkState t cs).
Proof. simpl. now rewrite N.eqb_refl. Qed.

Lemma m_Chr_miss c d t cs k :
  N.eqb d c = false -> m input (Chr c) (mkState (d :: t) cs) k = None.
Proof. intros H. simpl. now rewrite H. Qed.

Lemma m_Bol_start cs k :
  m input Bol (mkState input cs) k = k (mkState input cs).
Proof. simpl. now rewrite Nat.eqb_refl. Qed.

End MatcherEquations.

Lemma consumed_app a b cs cs' :
  a <> [] -> consumed (mkState (a ++ b) cs) (mkState b cs') = true.
Proof.
  intros Ha. unfold consumed. simpl. rewrite length_app.
  apply negb_true_iff, Nat.eqb_neq. destruct a; [congruence|simpl; lia].
Qed.

Lemma wf_part_inv p s :
  wf_part p s = true ->
  exists c s', s = c :: s' /\ p c = true /\ Forall (fun c => p c = true) s'.
Proof.
  unfold wf_part. destruct s as [|c s']; simpl; [discriminate|].
  intros H. apply andb_true_iff in H as [Hc Hs].
  exists c, s'. repeat split; auto. apply Forall_forall. now apply forallb_forall.
Qed.

Lemma render_version_stop version :
  match render_version version with
  | [] => True
  | c :: _ => not_chr c_at c = false
  end.
Proof. destruct version; simpl; auto. Qed.

Lemma match_version input version c1 c2 :
  wf_opt dot version = true ->
  m input (Seq (Opt (Grp 3 (Seq (Chr c_at) (Plus (Cls dot))))) Eol)
    (mkState (render_version version) [c1; c2; None]) (fun y => Some y)
  = Some (mkState [] [c1; c2; option_map (cons c_at) version]).
Proof.
  destruct version as [V|]; cbn [wf_opt render_version option_map];
    [|reflexivity].
  intros H. apply wf_part_inv in H as (c & V' & -> & Hc & HV).
  rewrite m_Seq, m_Opt, m_Grp, m_Seq.
  change (groups (Grp 3 (Seq (Chr c_at) (Plus (Cls dot))))) with [3].
  unfold clear; cbn [fold_right set_cap caps rest].
  rewrite m_Chr_hit.
  rewrite <- (app_nil_r V').
  erewrite plus_cls_run; [reflexivity|assumption|assumption|exact I|].
  rewrite app_nil_r. cbn [rest caps set_cap].
  change (len []) with 0. rewrite Nat.sub_0_r, firstn_all.
  reflexivity.
Qed.

Lemma match_name input name version c1 :
  wf_part (not_chr c_at) name = true ->
  wf_opt dot version = true ->
  m input (Seq (Opt (Grp 2 (Plus (Cls (not_chr c_at)))))
            (Seq (Opt (Grp 3 (Seq (Chr c_at) (Plus (Cls dot))))) Eol))
    (mkState (name ++ render_version version) [c1; None; None]) (fun y => Some y)
  = Some (mkState [] [c1; Some name; option_map (cons c_at) version]).
Proof.
  intros Hn Hv. pose proof Hn as Hn'.
  apply wf_part_inv in Hn' as (c & N' & E & Hc & HN).
  rewrite m_Seq, m_Opt, m_Grp.
  change (groups (Grp 2 (Plus (Cls (not_chr c_at))))) with [2].
  unfold clear; cbn [fold_right set_cap caps rest].
  rewrite E at 1. change ((c :: N') ++ render_version version)
    with (c :: N' ++ render_version version).
  erewrite plus_cls_run;
    [reflexivity|assumption|assumption|apply render_version_stop|].
  cbn [rest caps set_cap].
  rewrite firstn_app_exact, consumed_app
    by (rewrite E; discriminate).
  now apply match_version.
Qed.

Lemma match_package scope name version :
  wf_id scope name version = true ->
  m (package_id scope name version) re_package
    (mkState (package_id scope name version) [None; None; None]) (fun y => Some y)
  = Some (mkState [] [option_map render_scope (option_map Some scope);
                      Some name; option_map (cons c_at) version]).
Proof.
  unfold wf_id. intros H.
  apply andb_true_iff in H as [H Hv]. apply andb_true_iff in H as [Hs Hn].
  unfold re_package. rewrite m_Seq, m_Bol_start, m_Seq, m_Opt, m_Grp, m_Seq.
  change (groups (Grp 1 (Seq (Chr c_at)
            (Seq (Plus (Cls (not_chr c_slash))) (Chr c_slash))))) with [1].
  unfold clear; cbn [fold_right set_cap caps rest].
  destruct scope as [S|]; cbn [wf_opt option_map] in *.
  - apply wf_part_inv in Hs as (c & S' & -> & Hc & HS).
    unfold package_id at 2.
    change (render_scope (Some (c :: S')) ++ name ++ render_version version)
      with (c_at :: c :: (S' ++ [c_slash]) ++ name ++ render_version version).
    rewrite <- app_assoc.
    change ([c_slash] ++ name ++ render_version version)
      with (c_slash :: name ++ render_version version).
    rewrite m_Chr_hit, m_Seq.
    erewrite plus_cls_run; [reflexivity|assumption|assumption|reflexivity|].
    rewrite m_Chr_hit. cbn [rest caps set_cap].
    unfold package_id.
    rewrite firstn_app_exact, consumed_app by discriminate.
    now apply match_name.
  - pose proof Hn as Hn'.
    apply wf_part_inv in Hn' as (c & N' & E & Hc & _).
    unfold package_id. cbn [render_scope app].
    rewrite E at 2. change ((c :: N') ++ render_version version)
      with (c :: N' ++ render_version version).
    rewrite m_Chr_miss by (now apply negb_true_iff in Hc).
    cbn [orelse]. now apply match_name.
Qed.

Lemma exec_from_unfold r n input s :
  exec_from r n input s =
  match m input r (mkState s (repeat None n)) (fun y => Some y) with
  | Some y =>
      Some (mkResult (len input - len s)
              (Some (firstn (len s - len (rest y)) s) :: caps y))
  | None =>
      match s with
      | [] => None
      | _ :: s' => exec_from r n input s'
      end
  end.
Proof. destruct s; reflexivity. Qed.

(** A well-formed identifier is matched from its start, and the three
    captures are its scope, its name and its version. *)
Lemma exec_package scope name version :
  wf_id scope name version = true ->
  exec re_package (package_id scope name version)
  = Some (mkResult 0
            [Some (package_id scope name version);
             option_map render_scope (option_map Some scope);
             Some name; option_map (cons c_at) version]).
Proof.
  intros H. unfold exec. rewrite exec_from_unfold.
  change (repeat None (ngroups re_package)) with [@None str; None; None].
  rewrite match_package by assumption.
  cbn [rest caps]. change (len []) with 0.
  now rewrite Nat.sub_diag, Nat.sub_0_r, firstn_all.
Qed.

(** ** [getTemplateInstallPackage] *)

Lemma no_prefix_without_at name :
  wf_part (not_chr c_at) name = true ->
  has_template_prefix defaultTemplate name = false.
Proof.
  intros H. apply wf_part_inv in H as (c & N' & -> & Hc & _).
  unfold not_chr in Hc. apply negb_true_iff in Hc.
  unfold has_template_prefix.
  change defaultTemplate with (c_at :: js "hackermans/cba-template").
  change (str_eqb (c :: N') (c_at :: js "hackermans/cba-template"))
    with (N.eqb c c_at && str_eqb N' (js "hackermans/cba-template")).
  change (startsWith ((c_at :: js "hackermans/cba-template") ++ js "-") (c :: N'))
    with (N.eqb c_at c && startsWith (js "hackermans/cba-template" ++ js "-") N').
  rewrite (N.eqb_sym c_at c), Hc. reflexivity.
Qed.

Section TemplateName.

Context {host : Host}.

(** On the package-name branch a well-formed identifier gets the prefix
    spliced between its scope and its name. *)
Lemma package_form_result scope name version originalDirectory w :
  wf_id scope name version = true ->
  package_name_branch (package_id scope name version) = true ->
  getTemplateInstallPackage (Some (package_id scope name version)) originalDirectory w
  = (Ret (render_scope scope ++ defaultTemplate ++ js "-" ++ name ++ render_version version),
     w, []).
Proof.
  intros Hwf Hbranch. pose proof Hwf as Hwf'. unfold wf_id in Hwf'.
  apply andb_true_iff in Hwf' as [Hsn Hv]. apply andb_true_iff in Hsn as [Hs Hn].
  unfold package_name_branch in Hbranch.
  apply andb_true_iff in Hbranch as [Hfile Hother].
  apply negb_true_iff in Hfile, Hother.
  assert (Hne : truthy_str (package_id scope name version) = true).
  { apply wf_part_inv in Hn as (c & N' & -> & _).
    unfold package_id. destruct scope; reflexivity. }
  unfold getTemplateInstallPackage.
  rewrite Hne, Hfile, Hother. cbn [negb].
  rewrite exec_package by assumption.
  unfold at_. cbn [array nth].
  rewrite no_prefix_without_at by assumption.
  assert (Hname : truthy_str name = true).
  { apply wf_part_inv in Hn as (c & N' & -> & _). reflexivity. }
  cbn [or_empty]. rewrite Hname. rewrite andb_false_r.
  destruct scope, version; reflexivity.
Qed.

(** C2. A bare name, optionally written with a scope and a version, that
    is no [file:], URL or archive form, comes back with the constant of
    line 555 between its scope and its name.  That constant is the
    conventional prefix under a scope of its own, so the result is not the
    identifier that the comments of lines 569-592 describe, and a name
    given with a scope comes back with two scopes. *)
Theorem getTemplateInstallPackage_splices_a_scoped_prefix
    scope name version originalDirectory w :
  wf_id scope name version = true ->
  package_name_branch (package_id scope name version) = true ->
  getTemplateInstallPackage (Some (package_id scope name version)) originalDirectory w
  = (Ret (render_scope scope ++ js "@hackermans/" ++ conventionalPrefix ++ js "-"
            ++ name ++ render_version version), w, [])
  /\ render_scope scope ++ js "@hackermans/" ++ conventionalPrefix ++ js "-"
       ++ name ++ render_version version
     <> described_package scope name version.
Proof.
  intros Hwf Hbranch. split.
  - now rewrite package_form_result.
  - unfold described_package. intros E. apply app_inv_head in E. discriminate E.
Qed.

(** C1. The identifiers that lines 580-584 list as covered are not returned
    unchanged: the prefix that the test compares the name with starts with
    a scope of its own, so the name never equals it and the prefix is
    spliced in once more. *)
Theorem getTemplateInstallPackage_prefixes_prefixed_names originalDirectory w :
  getTemplateInstallPackage (Some (js "cba-template")) originalDirectory w
  = (Ret (js "@hackermans/cba-template-cba-template"), w, [])
  /\ getTemplateInstallPackage (Some (js "@hackermans/cba-template")) originalDirectory w
     = (Ret (js "@hackermans/@hackermans/cba-template-cba-template"), w, [])
  /\ getTemplateInstallPackage (Some (js "cba-template-ts@1.0.0")) originalDirectory w
     = (Ret (js "@hackermans/cba-template-cba-template-ts@1.0.0"), w, [])
  /\ getTemplateInstallPackage (Some (js "@acme/cba-template-ts")) originalDirectory w
     = (Ret (js "@acme/@hackermans/cba-template-cba-template-ts"), w, []).
Proof. repeat split; reflexivity. Qed.

(** C9. The template [a@] reaches the package-name branch, the pattern of
    line 571 does not match it, and reading the captures of the [null]
    match throws. *)
Theorem getTemplateInstallPackage_throws_without_match originalDirectory w :
  package_name_branch (js "a@") = true
  /\ exec re_package (js "a@") = None
  /\ getTemplateInstallPackage (Some (js "a@")) originalDirectory w
     = (Throw TypeError, w, []).
Proof. repeat split; reflexivity. Qed.

Lemma getTemplateInstallPackage_state template originalDirectory w :
  final (getTemplateInstallPackage template originalDirectory w) = w
  /\ events (getTemplateInstallPackage template originalDirectory w) = [].
Proof.
  unfold getTemplateInstallPackage.
  destruct template as [t|]; [|now split].
  destruct (truthy_str t); [|now split]. cbn [negb].
  destruct (test re_file t).
  - destruct (exec re_file_path t) as [fileMatch|]; [|now split].
    destruct (at_ fileMatch 1); now split.
  - destruct (includes (js "://") t || test re_archive t); [now split|].
    destruct (exec re_package t) as [packageMatch|]; [|now split].
    destruct (has_template_prefix _ _); [now split|].
    destruct (_ && _); now split.
Qed.

Lemma getTemplateInstallPackage_Ret template originalDirectory w t :
  outcome (getTemplateInstallPackage template originalDirectory w) = Ret t ->
  getTemplateInstallPackage template originalDirectory w = (Ret t, w, []).
Proof.
  intros H.
  destruct (getTemplateInstallPackage_state template originalDirectory w) as [Hw He].
  rewrite <- (triple_eta (getTemplateInstallPackage template originalDirectory w)).
  now rewrite H, Hw, He.
Qed.


End TemplateName.

Lemma getTemplateInstallPackage_splices_a_scoped_prefix_witness :
  getTemplateInstallPackage (host := sample_host None)
    (Some (js "@acme/app@1.2.3")) home (mkWorld home None)
  = (Ret (js "@acme/@hackermans/cba-template-app@1.2.3"), mkWorld home None, [])
  /\ js "@acme/@hackermans/cba-template-app@1.2.3"
     <> described_package (Some (js "acme")) (js "app") (Some (js "1.2.3")).
Proof.
  apply (getTemplateInstallPackage_splices_a_scoped_prefix (host := sample_host None)
           (Some (js "acme")) (js "app") (Some (js "1.2.3")) home (mkWorld home None));
    reflexivity.
Defined.



(** ** Loops *)

Lemma forEach_log {A} (xs : list A) (g : A -> str) w :
  forEach xs (fun x => console_log (g x)) w = (Ret tt, w, map (fun x => Log (g x)) xs).
Proof.
  induction xs as [|x xs IH]; [reflexivity|].
  cbn [forEach]. run_step. rewrite IH. reflexivity.
Qed.

Lemma sorted_dependencies :
  sort [js "@babel/core"; js "@babel/preset-env"]
  = [js "@babel/core"; js "@babel/preset-env"].
Proof. reflexivity. Qed.

Section NameCheck.

Context {host : Host}.

Lemma checkAppName_invalid appName w :
  validForNewPackages (validateProjectName appName) = false ->
  exists logs,
    checkAppName appName w = (Exit 1%Z, w, logs)
    /\ logs <> [] /\ forallb is_log logs = true.
Proof.
  intros Hv. unfold checkAppName. rewrite Hv. cbn [negb].
  eexists. split; [|split].
  - erewrite bind_Exit; [reflexivity|].
    run_step.
    erewrite bind_Ret by apply forEach_log.
    run_step.
    cbn [exit outcome final events fst snd app]. reflexivity.
  - discriminate.
  - cbn [forallb is_log andb]. rewrite forallb_app. cbn [forallb is_log andb].
    rewrite andb_true_r. apply forallb_forall. intros e He.
    apply in_map_iff in He as (x & <- & _). reflexivity.
Qed.

Lemma checkAppName_dependency appName w :
  validForNewPackages (validateProjectName appName) = true ->
  appName = js "@babel/core" \/ appName = js "@babel/preset-env" ->
  exists logs,
    checkAppName appName w = (Exit 1%Z, w, logs)
    /\ logs <> [] /\ forallb is_log logs = true.
Proof.
  intros Hv Hdep. unfold checkAppName. rewrite Hv. cbn [negb].
  run_step. rewrite sorted_dependencies.
  replace (arr_includes appName [js "@babel/core"; js "@babel/preset-env"])
    with true
    by (symmetry; apply arr_includes_In; cbn [In]; destruct Hdep; auto).
  eexists. split; [|split].
  - run_step. reflexivity.
  - discriminate.
  - reflexivity.
Qed.

Lemma checkAppName_ok appName w :
  validForNewPackages (validateProjectName appName) = true ->
  appName <> js "@babel/core" -> appName <> js "@babel/preset-env" ->
  checkAppName appName w = (Ret tt, w, []).
Proof.
  intros Hv H1 H2. unfold checkAppName. rewrite Hv. cbn [negb].
  run_step. rewrite sorted_dependencies.
  replace (arr_includes appName [js "@babel/core"; js "@babel/preset-env"])
    with false; [reflexivity|].
  symmetry. apply arr_includes_not_In. cbn [In]. intuition congruence.
Qed.

Lemma checkAppName_cases appName w :
  checkAppName appName w = (Ret tt, w, [])
  \/ exists logs, checkAppName appName w = (Exit 1%Z, w, logs)
                  /\ logs <> [] /\ forallb is_log logs = true.
Proof.
  destruct (validForNewPackages (validateProjectName appName)) eqn:Hv.
  - destruct (str_eqb appName (js "@babel/core")) eqn:E1.
    { right. apply checkAppName_dependency; [assumption|].
      left. now apply str_eqb_eq. }
    destruct (str_eqb appName (js "@babel/preset-env")) eqn:E2.
    { right. apply checkAppName_dependency; [assumption|].
      right. now apply str_eqb_eq. }
    left. apply checkAppName_ok; [assumption| |]; now apply str_eqb_neq.
  - right. now apply checkAppName_invalid.
Qed.

(** C6. A name that npm's validation rejects, or that is one of the two
    fixed dependencies, is reported on the console and ends the process
    with status 1; any other name lets [checkAppName] return, with nothing
    printed and nothing changed. *)
Theorem checkAppName_exits_or_returns appName w :
  (validForNewPackages (validateProjectName appName) = false
   \/ appName = js "@babel/core" \/ appName = js "@babel/preset-env" ->
   exists logs, checkAppName appName w = (Exit 1%Z, w, logs)
                /\ logs <> [] /\ forallb is_log logs = true)
  /\ (validForNewPackages (validateProjectName appName) = true ->
      appName <> js "@babel/core" -> appName <> js "@babel/preset-env" ->
      checkAppName appName w = (Ret tt, w, [])).
Proof.
  split.
  - intros H.
    destruct (validForNewPackages (validateProjectName appName)) eqn:Hv.
    + destruct H as [H|H]; [discriminate|].
      now apply checkAppName_dependency.
    + now apply checkAppName_invalid.
  - apply checkAppName_ok.
Qed.

End NameCheck.

Lemma checkAppName_exits_or_returns_witness :
  (exists logs,
     checkAppName (host := sample_host None) (js "my app") (mkWorld home None)
     = (Exit 1%Z, mkWorld home None, logs)
     /\ logs <> [] /\ forallb is_log logs = true)
  /\ checkAppName (host := sample_host None) (js "my-app") (mkWorld home None)
     = (Ret tt, mkWorld home None, []).
Proof.
  split.
  - apply (proj1 (checkAppName_exits_or_returns (host := sample_host None)
                    (js "my app") (mkWorld home None))).
    left. reflexivity.
  - apply (proj2 (checkAppName_exits_or_returns (host := sample_host None)
                    (js "my-app") (mkWorld home None)));
      [reflexivity | discriminate | discriminate].
Defined.

(** ** Events of composed computations *)

Lemma bind_events {A B} (c : M A) (f : A -> M B) w :
  exists post, events (bind c f w) = events (c w) ++ post.
Proof.
  unfold bind. destruct (c w) as [[[a|e|n|e] w1] ev1]; cbn [events snd].
  - destruct (f a w1) as [[o w2] ev2]. now exists ev2.
  - exists []. now rewrite app_nil_r.
  - exists []. now rewrite app_nil_r.
  - exists []. now rewrite app_nil_r.
Qed.

Lemma catch_events {A} (c : M A) (h : Error -> M A) w :
  exists post, events (catch c h w) = events (c w) ++ post.
Proof.
  unfold catch. destruct (c w) as [[[a|e|n|e] w1] ev1]; cbn [events snd];
    try (exists []; now rewrite app_nil_r).
  destruct (h e w1) as [[o w2] ev2]. now exists ev2.
Qed.

Section Install.

Context {host : Host}.

Lemma sync_run command args w :
  sync command args w
  = (Ret (fst (spawn_sync command args w)),
     mkWorld (cwd w) (snd (spawn_sync command args w)), [Spawn command args]).
Proof. unfold sync. now destruct (spawn_sync command args w). Qed.

Lemma install_npm_events root dependencies verbose isOnline w :
  events (install root false dependencies verbose isOnline w)
  = [Spawn (js "npm")
       ([js "install"; js "--no-audit"; js "--save-exact"; js "--loglevel"; js "error"]
          ++ dependencies ++ (if verbose then [js "--verbose"] else []))].
Proof.
  unfold install. run_step. cbn [fst snd].
  erewrite bind_Ret by apply sync_run.
  assert (E : (if verbose
               then ([js "install"; js "--no-audit"; js "--save-exact";
                      js "--loglevel"; js "error"] ++ dependencies) ++ [js "--verbose"]
               else [js "install"; js "--no-audit"; js "--save-exact";
                     js "--loglevel"; js "error"] ++ dependencies)
              = [js "install"; js "--no-audit"; js "--save-exact"; js "--loglevel"; js "error"]
                  ++ dependencies ++ (if verbose then [js "--verbose"] else [])).
  { destruct verbose.
    - now rewrite <- app_assoc.
    - now rewrite app_nil_r. }
  rewrite E. cbn [events snd app].
  destruct (fst (spawn_sync _ _ w)) as [[|?|?]|]; reflexivity.
Qed.

Lemma install_yarn_events root dependencies verbose isOnline w :
  exists logs rest,
    events (install root true dependencies verbose isOnline w)
    = logs ++ [Spawn (js "yarnpkg") (js "add" :: js "--exact" :: rest)]
    /\ incl dependencies rest
    /\ forallb is_log logs = true.
Proof.
  unfold install.
  destruct isOnline; cbn [negb].
  - exists [], (dependencies ++ [js "--cwd"] ++ [root]
                 ++ (if verbose then [js "--verbose"] else [])).
    split; [|split; [apply incl_appl, incl_refl|reflexivity]].
    run_step. cbn [fst snd outcome final events].
    erewrite bind_Ret by apply sync_run.
    cbn [events snd app].
    destruct (fst (spawn_sync _ _ w)) as [[|?|?]|]; destruct verbose;
      cbn [events snd app]; repeat rewrite <- app_assoc; reflexivity.
  - exists [Log (js "You appear to be offline.");
            Log (js "Falling back to the local Yarn cache."); Log []],
           (js "--offline" :: dependencies ++ [js "--cwd"] ++ [root]
                 ++ (if verbose then [js "--verbose"] else [])).
    split; [|split; [apply incl_tl, incl_appl, incl_refl|reflexivity]].
    run_step. cbn [fst snd outcome final events].
    erewrite bind_Ret by apply sync_run.
    cbn [events snd app].
    destruct (fst (spawn_sync _ _ w)) as [[|?|?]|]; destruct verbose;
      cbn [events snd app]; repeat rewrite <- app_assoc; reflexivity.
Qed.

(** [install] resolves exactly when the child ends with status 0; any other
    status, or none, rejects with the command line. *)
Lemma install_outcome root isYarn dependencies verbose isOnline w :
  exists command args logs,
    install root isYarn dependencies verbose isOnline w
    = (match fst (spawn_sync command args w) with
       | Some 0%Z => Ret tt
       | _ => Throw (Rejected (command ++ js " " ++ join (js " ") args))
       end,
       mkWorld (cwd w) (snd (spawn_sync command args w)),
       logs ++ [Spawn command args])
    /\ forallb is_log logs = true.
Proof.
  unfold install. destruct isYarn.
  - destruct isOnline; cbn [negb].
    + run_step. cbn [fst snd outcome final events].
      erewrite bind_Ret by apply sync_run.
      match goal with
      | |- context [spawn_sync ?c ?a w] => exists c, a, []
      end.
      split; [|reflexivity].
      destruct (fst (spawn_sync _ _ w)) as [[|?|?]|]; reflexivity.
    + run_step. cbn [fst snd outcome final events].
      erewrite bind_Ret by apply sync_run.
      match goal with
      | |- context [spawn_sync ?c ?a w] =>
          exists c, a, [Log (js "You appear to be offline.");
                        Log (js "Falling back to the local Yarn cache."); Log []]
      end.
      split; [|reflexivity].
      destruct (fst (spawn_sync _ _ w)) as [[|?|?]|]; reflexivity.
  - run_step. cbn [fst snd outcome final events].
    erewrite bind_Ret by apply sync_run.
    match goal with
    | |- context [spawn_sync ?c ?a w] => exists c, a, []
    end.
    split; [|reflexivity].
    destruct (fst (spawn_sync _ _ w)) as [[|?|?]|]; reflexivity.
Qed.

Lemma checkIfOnline_state useYarn w :
  final (checkIfOnline useYarn w) = w /\ events (checkIfOnline useYarn w) = [].
Proof.
  unfold checkIfOnline. destruct useYarn; cbn [negb]; [|now split].
  run_step.
  destruct (dns_lookup_fails w); now split.
Qed.

Lemma checkIfOnline_Ret useYarn w isOnline :
  outcome (checkIfOnline useYarn w) = Ret isOnline ->
  checkIfOnline useYarn w = (Ret isOnline, w, []).
Proof.
  intros H. destruct (checkIfOnline_state useYarn w) as [Hw He].
  rewrite <- (triple_eta (checkIfOnline useYarn w)). now rewrite H, Hw, He.
Qed.

End Install.

(** ** Loops that remove entries of the project directory *)

Lemma filter_filter {A} (f g : A -> bool) (l : list A) :
  filter f (filter g l) = filter (fun x => g x && f x) l.
Proof.
  induction l as [|x l IH]; [reflexivity|]. simpl.
  destruct (g x); simpl; [destruct (f x)|]; now rewrite IH.
Qed.

Lemma filter_all {A} (f : A -> bool) (l : list A) :
  (forall x, In x l -> f x = true) -> filter f l = l.
Proof.
  induction l as [|x l IH]; intros H; [reflexivity|]. simpl.
  rewrite (H x (or_introl eq_refl)). f_equal. apply IH. intros y Hy.
  apply H. now right.
Qed.

(** Removing, one name after the other, the names of [l] that satisfy [P]
    keeps the entries whose name is not such a name. *)
Lemma fold_remove_filter (P : str -> bool) (l : list str) (d : Dir) :
  fold_left (fun d f => if P f then remove_entry f d else d) l d
  = filter (fun e => negb (P (fst e) && arr_includes (fst e) l)) d.
Proof.
  revert d. induction l as [|f l IH]; intros d.
  - simpl. symmetry. apply filter_all. intros e _.
    now rewrite andb_false_r.
  - cbn [fold_left]. rewrite IH. destruct (P f) eqn:Pf.
    + unfold remove_entry. rewrite filter_filter. apply filter_ext.
      intros e. unfold arr_includes. cbn [existsb].
      destruct (str_eqb (fst e) f) eqn:E.
      * apply str_eqb_eq in E. rewrite E, Pf. reflexivity.
      * reflexivity.
    + apply filter_ext. intros e. unfold arr_includes. cbn [existsb].
      destruct (str_eqb (fst e) f) eqn:E; [|reflexivity].
      apply str_eqb_eq in E. rewrite E, Pf. reflexivity.
Qed.

Lemma fold_remove_listing (P : str -> bool) (d : Dir) :
  fold_left (fun d f => if P f then remove_entry f d else d) (map fst d) d
  = filter (fun e => negb (P (fst e))) d.
Proof.
  rewrite fold_remove_filter. apply filter_ext_in. intros e He.
  replace (arr_includes (fst e) (map fst d)) with true;
    [now rewrite andb_true_r|].
  symmetry. apply arr_includes_In. now apply in_map.
Qed.

(** A loop whose body removes the entry it visits when [P] holds of its
    name, and otherwise leaves the directory alone. *)
Lemma forEach_remove (P : str -> bool) (body : str -> M unit)
    (ev : str -> list Event) (l : list str) (w : State) (d : Dir) :
  (forall f w' d', proj w' = Some d' ->
     body f w' = (Ret tt,
                  mkWorld (cwd w') (Some (if P f then remove_entry f d' else d')),
                  ev f)) ->
  proj w = Some d ->
  forEach l body w
  = (Ret tt,
     mkWorld (cwd w)
       (Some (fold_left (fun d f => if P f then remove_entry f d else d) l d)),
     flat_map ev l).
Proof.
  intros Hbody. revert w d. induction l as [|f l IH]; intros w d Hd.
  - cbn [forEach fold_left flat_map]. unfold ret. destruct w as [c p].
    simpl in Hd. now subst.
  - cbn [forEach fold_left flat_map].
    rewrite (bind_Ret _ _ _ _ _ _ (Hbody f w d Hd)).
    cbn [outcome final events fst snd].
    rewrite (IH (mkWorld (cwd w) (Some (if P f then remove_entry f d else d)))
               (if P f then remove_entry f d else d) eq_refl).
    reflexivity.
Qed.

Lemma forEach_logs_only {A} (body : A -> M unit) :
  (forall x w, exists line, body x w = (Ret tt, w, [Log line])) ->
  forall xs w, exists ev,
    forEach xs body w = (Ret tt, w, ev) /\ forallb is_log ev = true.
Proof.
  intros Hbody xs w. induction xs as [|x xs IH].
  - now exists [].
  - destruct (Hbody x w) as [line E]. destruct IH as (ev & E' & Hev).
    exists (Log line :: ev). split; [|exact Hev].
    cbn [forEach]. rewrite (bind_Ret _ _ _ _ _ _ E). now rewrite E'.
Qed.

Lemma flat_map_remove (P : str -> bool) (l : list str) :
  flat_map (fun f => if P f then [Remove f] else []) l = map Remove (filter P l).
Proof.
  induction l as [|f l IH]; [reflexivity|]. simpl.
  destruct (P f); simpl; now rewrite IH.
Qed.

(** ** [isSafeToCreateProjectIn] *)

Section DirectoryCheck.

Context {host : Host}.

Lemma readdirSync_run w d :
  proj w = Some d -> readdirSync w = (Ret (map fst d), w, []).
Proof. intros H. unfold readdirSync. now rewrite H. Qed.

Lemma conflict_line file w :
  exists line,
    catch
      (bind (lstat_isDirectory file) (fun isDir =>
         if isDir then console_log (js "  " ++ file ++ js "/")
         else console_log (js "  " ++ file)))
      (fun _ => console_log (js "  " ++ file)) w
    = (Ret tt, w, [Log line]).
Proof.
  unfold catch, bind, lstat_isDirectory.
  destruct (proj w) as [d|]; [|eexists; reflexivity].
  destruct (find_entry file d) as [[data|]|]; eexists; reflexivity.
Qed.

Lemma isSafe_conflict root name w d :
  proj w = Some d ->
  conflicts_of (map fst d) <> [] ->
  exists logs,
    isSafeToCreateProjectIn root name w = (Ret false, w, logs)
    /\ forallb is_log logs = true.
Proof.
  intros Hd Hc. unfold isSafeToCreateProjectIn.
  rewrite (bind_Ret _ _ _ _ _ _ (readdirSync_run w d Hd)).
  destruct (conflicts_of (map fst d)) as [|c cs] eqn:E; [congruence|].
  cbn [List.length Nat.ltb Nat.leb].
  destruct (forEach_logs_only _ conflict_line (c :: cs) w) as (ev & Eev & Hev).
  eexists. split.
  - run_step. run_step.
    rewrite (bind_Ret _ _ _ _ _ _ Eev).
    run_step. run_step.
    reflexivity.
  - cbn [events outcome final fst snd app ret console_log emit forallb is_log andb].
    rewrite forallb_app, Hev. reflexivity.
Qed.

Lemma isSafe_clear root name w d :
  proj w = Some d ->
  conflicts_of (map fst d) = [] ->
  isSafeToCreateProjectIn root name w
  = (Ret true,
     mkWorld (cwd w) (Some (filter (fun e => negb (isErrorLog (fst e))) d)),
     map Remove (filter isErrorLog (map fst d))).
Proof.
  intros Hd Hc. unfold isSafeToCreateProjectIn.
  rewrite (bind_Ret _ _ _ _ _ _ (readdirSync_run w d Hd)). rewrite Hc.
  cbn [List.length Nat.ltb Nat.leb].
  rewrite (bind_Ret _ _ _ _ _ _ (readdirSync_run w d Hd)).
  erewrite bind_Ret.
  2:{ apply (forEach_remove isErrorLog _
               (fun f => if isErrorLog f then [Remove f] else [])
               (map fst d) w d); [|exact Hd].
      intros f w' d' Hd'. destruct (isErrorLog f).
      - unfold removeSync. now rewrite Hd'.
      - unfold ret. destruct w' as [c p]. simpl in Hd'. now subst. }
  cbn [outcome final events fst snd ret app].
  now rewrite fold_remove_listing, flat_map_remove, app_nil_r.
Qed.

(** C10. When the check answers [false] the state is as before and only
    lines were printed; when it answers [true] the directory keeps, in
    order and with their contents, the entries that are no error log, and
    the entries removed are those whose name starts with one of the three
    error-log patterns. *)
Theorem isSafeToCreateProjectIn_removes_only_error_logs root name w d :
  proj w = Some d ->
  (outcome (isSafeToCreateProjectIn root name w) = Ret false
   \/ outcome (isSafeToCreateProjectIn root name w) = Ret true)
  /\ (outcome (isSafeToCreateProjectIn root name w) = Ret false ->
      final (isSafeToCreateProjectIn root name w) = w
      /\ forallb is_log (events (isSafeToCreateProjectIn root name w)) = true)
  /\ (outcome (isSafeToCreateProjectIn root name w) = Ret true ->
      final (isSafeToCreateProjectIn root name w)
      = mkWorld (cwd w) (Some (filter (fun e => negb (isErrorLog (fst e))) d))
      /\ events (isSafeToCreateProjectIn root name w)
         = map Remove (filter isErrorLog (map fst d))).
Proof.
  intros Hd.
  destruct (conflicts_of (map fst d)) as [|c cs] eqn:E.
  - rewrite (isSafe_clear root name w d Hd E). cbn [outcome final events fst snd].
    split; [now right|]. split; [discriminate|]. now split.
  - destruct (isSafe_conflict root name w d Hd) as (logs & Er & Hl);
      [congruence|].
    rewrite Er. cbn [outcome final events fst snd].
    split; [now left|]. split; [now split|discriminate].
Qed.

End DirectoryCheck.

Lemma isSafeToCreateProjectIn_removes_only_error_logs_witness :
  outcome (isSafeToCreateProjectIn
             (js "/home/dev/my-app") (js "my-app") (mkWorld home (Some sample_dir)))
  = Ret true
  /\ final (isSafeToCreateProjectIn
              (js "/home/dev/my-app") (js "my-app") (mkWorld home (Some sample_dir)))
     = mkWorld home (Some [ (js ".git", Folder);
                            (js "README.md", File (Text (js "# my-app"))) ]).
Proof.
  split; [reflexivity|].
  apply (proj1 (proj2 (proj2
    (isSafeToCreateProjectIn_removes_only_error_logs
       (js "/home/dev/my-app") (js "my-app") (mkWorld home (Some sample_dir))
       sample_dir eq_refl)) eq_refl)).
Defined.

(** ** [createApp] up to the manifest *)

Lemma allow_listed_is_no_log_nor_module file :
  arr_includes file validFiles = true ->
  test re_iml file = false /\ isErrorLog file = false.
Proof.
  intros H. apply arr_includes_In in H. unfold validFiles in H. cbn [In] in H.
  repeat (destruct H as [H|H]; [subst file; split; reflexivity|]).
  contradiction.
Qed.

Lemma filter_none {A} (f : A -> bool) (l : list A) :
  (forall x, In x l -> f x = false) -> filter f l = [].
Proof.
  induction l as [|x l IH]; intros H; [reflexivity|]. simpl.
  rewrite (H x (or_introl eq_refl)). apply IH. intros y Hy. apply H. now right.
Qed.

Lemma conflicts_of_allow_listed files :
  (forall f, In f files -> arr_includes f validFiles = true) ->
  conflicts_of files = [].
Proof.
  intros H. unfold conflicts_of.
  rewrite (filter_none (fun file => negb (arr_includes file validFiles)) files);
    [reflexivity|].
  intros f Hf. now rewrite (H f Hf).
Qed.

Lemma conflicts_of_In files f :
  In f files ->
  arr_includes f validFiles = false ->
  test re_iml f = false ->
  isErrorLog f = false ->
  In f (conflicts_of files).
Proof.
  intros Hin Hv Hi He. unfold conflicts_of.
  apply filter_In. split; [|now rewrite He].
  apply filter_In. split; [|now rewrite Hi].
  apply filter_In. split; [assumption|now rewrite Hv].
Qed.

Lemma logs_are_no_writes ev :
  forallb is_log ev = true -> forallb (fun e => negb (is_write e)) ev = true.
Proof.
  intros H. apply forallb_forall. intros e He.
  apply (proj1 (forallb_forall _ _) H) in He. now destruct e.
Qed.

(** When [dir], resolved against the working directory, names [root] and
    [root] exists, [ensureDirSync] has nothing to do. *)
Lemma ensureDirSync_exists {host : Host} root dir w d :
  proj w = Some d ->
  path_resolve (cwd w) [dir] = root ->
  ensureDirSync root dir w = (Ret tt, w, []).
Proof.
  intros H E. unfold ensureDirSync. now rewrite E, str_eqb_refl, H.
Qed.

Section CreateApp.

Context {host : Host}.

Lemma unsupported_node_warning w :
  exists logs,
    (if node_version_unsupported
     then console_log (js "Unsupported Node version. Please upgrade to Node 12 or higher for a better experience.")
     else ret tt) w = (Ret tt, w, logs)
    /\ forallb is_log logs = true.
Proof. destruct node_version_unsupported; eexists; split; reflexivity. Qed.

(** C3, as the code has it, for a project name whose last segment,
    resolved against the working directory, is the target directory again
    (the directory that line 88 ensures is then the one that line 89
    checks).  When every entry of the target directory is on the allow-list
    and the name passes [checkAppName], the check answers [true] and
    [createApp] writes the manifest.  When some entry is neither on the
    allow-list, nor an IntelliJ module file, nor an error log of an earlier
    run, the check answers [false] and [createApp] ends with status 1
    without a single write. *)
Theorem createApp_checks_the_directory name verbose template isYarn w d :
  proj w = Some d ->
  path_resolve (cwd w) [path_basename (path_resolve (cwd w) [name])]
  = path_resolve (cwd w) [name] ->
  ((forall e, In e d -> arr_includes (fst e) validFiles = true) ->
   validForNewPackages
     (validateProjectName (path_basename (path_resolve (cwd w) [name]))) = true ->
   path_basename (path_resolve (cwd w) [name]) <> js "@babel/core" ->
   path_basename (path_resolve (cwd w) [name]) <> js "@babel/preset-env" ->
   outcome (isSafeToCreateProjectIn (path_resolve (cwd w) [name])
              (path_basename (path_resolve (cwd w) [name])) w) = Ret true
   /\ In (WriteFile (js "package.json")
            (Json [ (js "name", JStr (path_basename (path_resolve (cwd w) [name])));
                    (js "version", JStr (js "1.0.0"));
                    (js "private", JBool true) ]))
         (events (createApp name verbose template isYarn w)))
  /\ ((exists e, In e d /\ arr_includes (fst e) validFiles = false
                 /\ test re_iml (fst e) = false /\ isErrorLog (fst e) = false) ->
      outcome (isSafeToCreateProjectIn (path_resolve (cwd w) [name])
                 (path_basename (path_resolve (cwd w) [name])) w) = Ret false
      /\ outcome (createApp name verbose template isYarn w) = Exit 1%Z
      /\ forallb (fun e => negb (is_write e))
           (events (createApp name verbose template isYarn w)) = true).
Proof.
  intros Hd Hroot.
  destruct (unsupported_node_warning w) as (warn & Ewarn & Hwarn).
  split.
  - intros Hall Hvalid Hcore Hpreset.
    assert (Hclear : conflicts_of (map fst d) = []).
    { apply conflicts_of_allow_listed. intros f Hf.
      apply in_map_iff in Hf as (e & <- & He). now apply Hall. }
    pose proof (isSafe_clear (path_resolve (cwd w) [name])
                  (path_basename (path_resolve (cwd w) [name])) w d Hd Hclear) as Esafe.
    split; [now rewrite Esafe|].
    unfold createApp.
    rewrite (bind_Ret _ _ _ _ _ _ Ewarn).
    run_step.
    rewrite (bind_Ret _ _ _ _ _ _ (checkAppName_ok _ w Hvalid Hcore Hpreset)).
    rewrite (bind_Ret _ _ _ _ _ _ (ensureDirSync_exists _ _ w d Hd Hroot)).
    rewrite (bind_Ret _ _ _ _ _ _ Esafe).
    cbn [negb].
    run_step.
    run_step.
    run_step.
    run_step.
    cbn [events snd].
    repeat first [ now (apply in_or_app; left; left) | apply in_or_app; right ].
  - intros (e & He & Hv & Hi & Hl).
    assert (Hconf : conflicts_of (map fst d) <> []).
    { intros E. pose proof (conflicts_of_In (map fst d) (fst e)
                              (in_map fst d e He) Hv Hi Hl) as Hin.
      now rewrite E in Hin. }
    destruct (isSafe_conflict (path_resolve (cwd w) [name])
                (path_basename (path_resolve (cwd w) [name])) w d Hd Hconf)
      as (logs & Esafe & Hlogs).
    split; [now rewrite Esafe|].
    unfold createApp.
    rewrite (bind_Ret _ _ _ _ _ _ Ewarn).
    run_step.
    cbn [outcome final events fst snd get_state].
    destruct (checkAppName_cases (path_basename (path_resolve (cwd w) [name])) w)
      as [Eok|(nlogs & Ebad & _ & Hnlogs)].
    + rewrite (bind_Ret _ _ _ _ _ _ Eok).
      rewrite (bind_Ret _ _ _ _ _ _ (ensureDirSync_exists _ _ w d Hd Hroot)).
      rewrite (bind_Ret _ _ _ _ _ _ Esafe).
      cbn [negb].
      erewrite (bind_Exit _ _ w 1%Z w []) by reflexivity.
      cbn [outcome final events fst snd app].
      split; [reflexivity|].
      rewrite app_nil_r, forallb_app.
      now rewrite (logs_are_no_writes _ Hwarn), (logs_are_no_writes _ Hlogs).
    + rewrite (bind_Exit _ _ _ _ _ _ Ebad).
      cbn [outcome final events fst snd app].
      split; [reflexivity|].
      rewrite forallb_app.
      now rewrite (logs_are_no_writes _ Hwarn), (logs_are_no_writes _ Hnlogs).
Qed.

End CreateApp.

(** ** [run]: the failure handler *)

Lemma known_generated_body file w d :
  proj w = Some d ->
  forEach knownGeneratedFiles
    (fun fileToMatch =>
       if str_eqb file fileToMatch then
         bind (console_log (js "Deleting generated file... " ++ file))
              (fun _ => removeSync file)
       else ret tt) w
  = (Ret tt,
     mkWorld (cwd w)
       (Some (if arr_includes file knownGeneratedFiles
              then remove_entry file d else d)),
     if arr_includes file knownGeneratedFiles
     then [Log (js "Deleting generated file... " ++ file); Remove file] else []).
Proof.
  intros Hd. unfold knownGeneratedFiles, arr_includes.
  cbn [forEach existsb].
  destruct (str_eqb file (js "package.json")) eqn:E1;
    destruct (str_eqb file (js "node_modules")) eqn:E2.
  - apply str_eqb_eq in E1, E2. subst file. discriminate.
  - unfold bind, console_log, emit, removeSync, ret. rewrite Hd. reflexivity.
  - unfold bind, console_log, emit, removeSync, ret. rewrite Hd. reflexivity.
  - unfold bind, ret. destruct w as [c p]. simpl in Hd. subst p. reflexivity.
Qed.

Section Run.

Context {host : Host}.

(** C4. When the install step of [run] fails, the handler of lines 290-328
    removes from the project directory the entries named [package.json] or
    [node_modules] and no other, removes the directory itself exactly when
    nothing is left in it, and ends the process with status 1. *)
Theorem run_cleans_up_after_failed_install
    root appName verbose originalDirectory template isYarn w t isOnline reason w1 ev d1 :
  outcome (getTemplateInstallPackage template originalDirectory w) = Ret t ->
  outcome (checkIfOnline isYarn w) = Ret isOnline ->
  install root isYarn [js "@babel/core"; js "@babel/preset-env"; t] verbose isOnline w
  = (Throw reason, w1, ev) ->
  proj w1 = Some d1 ->
  outcome (run root appName verbose originalDirectory template isYarn w) = Exit 1%Z
  /\ proj (final (run root appName verbose originalDirectory template isYarn w))
     = match filter (fun e => negb (arr_includes (fst e) knownGeneratedFiles)) d1 with
       | [] => None
       | kept => Some kept
       end.
Proof.
  intros Ht Honline Hinstall Hd.
  unfold run.
  rewrite (bind_Ret _ _ _ _ _ _ (getTemplateInstallPackage_Ret _ _ _ _ Ht)).
  run_step.
  erewrite catch_Throw.
  2:{ rewrite (bind_Ret _ _ _ _ _ _ (checkIfOnline_Ret _ _ _ Honline)).
      run_step.
      run_step.
      cbn [app]. rewrite (bind_Throw _ _ _ _ _ _ Hinstall).
      cbn [outcome final events fst snd app]. reflexivity. }
  cbn [outcome final events fst snd].
  run_step.
  run_step.
  assert (Hreport : exists lines,
            (if truthy_str (or_empty (reason_command reason)) then
               console_log (js "  " ++ or_empty (reason_command reason) ++ js " has failed.")
             else
               bind (console_log (js "Unexpected error. Please report it as a bug:"))
                    (fun _ => console_log (error_text reason))) w1
            = (Ret tt, w1, lines)).
  { destruct (truthy_str (or_empty (reason_command reason))); eexists; reflexivity. }
  destruct Hreport as [lines Hreport].
  rewrite (bind_Ret _ _ _ _ _ _ Hreport).
  run_step.
  rewrite (bind_Ret _ _ _ _ _ _ (readdirSync_run w1 d1 Hd)).
  erewrite bind_Ret.
  2:{ apply (forEach_remove (fun f => arr_includes f knownGeneratedFiles) _
               (fun file => if arr_includes file knownGeneratedFiles
                            then [Log (js "Deleting generated file... " ++ file);
                                  Remove file]
                            else [])
               (map fst d1) w1 d1); [|exact Hd].
      intros f w' d' Hd'. now apply known_generated_body. }
  rewrite fold_remove_listing.
  erewrite bind_Ret by (now apply readdirSync_run).
  destruct (filter (fun e => negb (arr_includes (fst e) knownGeneratedFiles)) d1)
    as [|e kept]; cbn [map List.length Nat.eqb].
  - run_step.
    run_step.
    cbn [outcome final events fst snd exit proj]. now split.
  - run_step.
    run_step.
    cbn [outcome final events fst snd exit proj]. now split.
Qed.

(** C7. With npm the child is started with [install --no-audit --save-exact
    --loglevel error], then the dependencies in order, then [--verbose] when
    asked for; with Yarn the arguments start with [add --exact] and contain
    every dependency; and the install step of [run] is this call on
    [@babel/core], [@babel/preset-env] and the resolved template, with
    nothing but console lines before it. *)
Theorem install_pins_exact_versions
    root appName dependencies verbose isOnline originalDirectory template isYarn w :
  events (install root false dependencies verbose isOnline w)
  = [Spawn (js "npm")
       ([js "install"; js "--no-audit"; js "--save-exact"; js "--loglevel"; js "error"]
          ++ dependencies ++ (if verbose then [js "--verbose"] else []))]
  /\ (exists logs rest,
        events (install root true dependencies verbose isOnline w)
        = logs ++ [Spawn (js "yarnpkg") (js "add" :: js "--exact" :: rest)]
        /\ incl dependencies rest
        /\ forallb is_log logs = true)
  /\ (forall t online,
        outcome (getTemplateInstallPackage template originalDirectory w) = Ret t ->
        outcome (checkIfOnline isYarn w) = Ret online ->
        exists pre post,
          events (run root appName verbose originalDirectory template isYarn w)
          = pre ++ events (install root isYarn
                             [js "@babel/core"; js "@babel/preset-env"; t]
                             verbose online w) ++ post
          /\ forallb is_log pre = true).
Proof.
  split; [apply install_npm_events|].
  split; [apply install_yarn_events|].
  intros t online Ht Honline. unfold run.
  rewrite (bind_Ret _ _ _ _ _ _ (getTemplateInstallPackage_Ret _ _ _ _ Ht)).
  run_step.
  cbn [outcome final events fst snd app].
  match goal with
  | |- context [events (catch ?c ?h w)] =>
      destruct (catch_events c h w) as [post1 E1]; rewrite E1
  end.
  rewrite (bind_Ret _ _ _ _ _ _ (checkIfOnline_Ret _ _ _ Honline)).
  run_step.
  run_step.
  cbn [outcome final events fst snd app].
  match goal with
  | |- context [events (bind ?c ?f w)] =>
      destruct (bind_events c f w) as [post2 E2]; rewrite E2
  end.
  exists [Log (js "Installing packages. This might take a couple of minutes.");
          Log (js "Installing @babel/core, @babel/preset-env, with " ++ t);
          Log []], (post2 ++ post1).
  split; [|reflexivity].
  cbn [app]. now rewrite <- app_assoc.
Qed.

End Run.

Lemma run_cleans_up_after_failed_install_witness :
  outcome (run (host := sample_host (Some 1%Z)) sample_root (js "my-app") false home
             None false (mkWorld sample_root (Some sample_project)))
  = Exit 1%Z
  /\ proj (final (run (host := sample_host (Some 1%Z)) sample_root (js "my-app") false
                    home None false (mkWorld sample_root (Some sample_project))))
     = Some [ (js "README.md", File (Text (js "# my-app"))) ].
Proof.
  apply (run_cleans_up_after_failed_install (host := sample_host (Some 1%Z))
           sample_root (js "my-app") false home None false
           (mkWorld sample_root (Some sample_project))
           (js "@hackermans/cba-template") true
           (Rejected (js "npm install --no-audit --save-exact --loglevel error @babel/core @babel/preset-env @hackermans/cba-template"))
           (mkWorld sample_root (Some (sample_project ++ [(js "node_modules", Folder)])))
           [Spawn (js "npm")
              [js "install"; js "--no-audit"; js "--save-exact"; js "--loglevel";
               js "error"; js "@babel/core"; js "@babel/preset-env";
               js "@hackermans/cba-template"]]
           (sample_project ++ [(js "node_modules", Folder)]));
    reflexivity.
Defined.

Lemma install_pins_exact_versions_witness :
  exists pre post,
    events (run (host := sample_host (Some 0%Z)) sample_root (js "my-app") true home
              (Some (js "ts")) false (mkWorld sample_root (Some sample_project)))
    = pre ++ [Spawn (js "npm")
                [js "install"; js "--no-audit"; js "--save-exact"; js "--loglevel";
                 js "error"; js "@babel/core"; js "@babel/preset-env";
                 js "@hackermans/cba-template-ts"; js "--verbose"]] ++ post
    /\ forallb is_log pre = true.
Proof.
  apply (proj2 (proj2
    (install_pins_exact_versions (host := sample_host (Some 0%Z))
       sample_root (js "my-app") [] true true home (Some (js "ts")) false
       (mkWorld sample_root (Some sample_project))))
    (js "@hackermans/cba-template-ts") true eq_refl eq_refl).
Defined.

(** ** The manifest merge of [initializeTemplate] *)

Lemma obj_get_put_eq k v o : obj_get k (put_own k v o) = v.
Proof.
  unfold obj_get. induction o as [|[k' v'] o IH]; simpl.
  - now rewrite str_eqb_refl.
  - destruct (str_eqb k k') eqn:E; simpl; rewrite E; [reflexivity|exact IH].
Qed.

Lemma obj_get_put_neq k k' v o :
  str_eqb k k' = false -> obj_get k (put_own k' v o) = obj_get k o.
Proof.
  intros Hk. unfold obj_get. induction o as [|[k0 v0] o IH]; simpl.
  - now rewrite Hk.
  - destruct (str_eqb k' k0) eqn:E; simpl.
    + apply str_eqb_eq in E. subst k0. now rewrite Hk.
    + destruct (str_eqb k k0); [reflexivity|exact IH].
Qed.

Lemma lookup_put_own k' k v o :
  lookup k' (put_own k v o) = if str_eqb k' k then Some v else lookup k' o.
Proof.
  induction o as [|[k0 v0] o IH]; simpl.
  - reflexivity.
  - destruct (str_eqb k k0) eqn:E; simpl.
    + apply str_eqb_eq in E. subst k0. now destruct (str_eqb k' k).
    + rewrite IH. destruct (str_eqb k' k0) eqn:E0; [|reflexivity].
      destruct (str_eqb k' k) eqn:E1; [|reflexivity].
      apply str_eqb_eq in E0, E1. subst. now rewrite str_eqb_refl in E.
Qed.

(** An assignment reaches the accessor only under the name [__proto__]. *)
Lemma sets_prototype_other k o : k <> js "__proto__" -> sets_prototype k o = false.
Proof.
  intros H. unfold sets_prototype. apply str_eqb_neq in H. now rewrite H.
Qed.

Lemma obj_get_set_eq k v o :
  sets_prototype k o = false -> obj_get k (obj_set k v o) = v.
Proof. intros H. unfold obj_set. rewrite H. apply obj_get_put_eq. Qed.

Lemma obj_get_set_neq k k' v o :
  str_eqb k k' = false -> obj_get k (obj_set k' v o) = obj_get k o.
Proof.
  intros Hk. unfold obj_set.
  destruct (sets_prototype k' o); [reflexivity|now apply obj_get_put_neq].
Qed.

Lemma lookup_obj_set_kept k k' v o :
  lookup k o <> None -> lookup k (obj_set k' v o) <> None.
Proof.
  intros H. unfold obj_set. destruct (sets_prototype k' o); [exact H|].
  rewrite lookup_put_own. now destruct (str_eqb k k').
Qed.

(** The assignment of one key does not make the assignment of another one
    reach the accessor. *)
Lemma sets_prototype_set k k' v o :
  sets_prototype k o = false -> sets_prototype k (obj_set k' v o) = false.
Proof.
  unfold sets_prototype. destruct (str_eqb k (js "__proto__")); [|reflexivity].
  cbn [andb]. intros H.
  pose proof (lookup_obj_set_kept k k' v o) as Hkept.
  destruct (lookup k o); [|discriminate].
  destruct (lookup k (obj_set k' v o)); [reflexivity|].
  exfalso. now apply Hkept.
Qed.

(** An object without an own [__proto__] never gains one by assignment. *)
Lemma lookup_proto_set k v o :
  lookup (js "__proto__") o = None -> lookup (js "__proto__") (obj_set k v o) = None.
Proof.
  intros H. unfold obj_set. destruct (sets_prototype k o) eqn:E; [exact H|].
  rewrite lookup_put_own. destruct (str_eqb (js "__proto__") k) eqn:Ek; [|exact H].
  apply str_eqb_eq in Ek. subst k. unfold sets_prototype in E.
  rewrite H in E. discriminate.
Qed.

Lemma fold_set_other (f : str -> JsVal) keys o k :
  ~ In k keys ->
  obj_get k (fold_left (fun acc key => obj_set key (f key) acc) keys o) = obj_get k o.
Proof.
  revert o. induction keys as [|key keys IH]; intros o Hk; [reflexivity|].
  cbn [fold_left]. rewrite IH by (intros H; apply Hk; now right).
  apply obj_get_set_neq. apply str_eqb_neq. intros E. apply Hk. now left.
Qed.

Lemma fold_set_in (f : str -> JsVal) keys o k :
  In k keys ->
  sets_prototype k o = false ->
  obj_get k (fold_left (fun acc key => obj_set key (f key) acc) keys o) = f k.
Proof.
  revert o. induction keys as [|key keys IH]; intros o Hk Hset; [contradiction|].
  cbn [fold_left].
  destruct (in_dec (list_eq_dec N.eq_dec) k keys) as [Hin|Hout].
  - apply IH; [assumption|now apply sets_prototype_set].
  - destruct Hk as [->|Hk]; [|contradiction].
    rewrite fold_set_other by assumption. now apply obj_get_set_eq.
Qed.

Lemma fold_set_proto (f : str -> JsVal) keys o :
  lookup (js "__proto__") o = None ->
  lookup (js "__proto__")
    (fold_left (fun acc key => obj_set key (f key) acc) keys o) = None.
Proof.
  revert o. induction keys as [|key keys IH]; intros o H; [exact H|].
  cbn [fold_left]. apply IH. now apply lookup_proto_set.
Qed.







Lemma merge_takes_template_keys appPackage templatePackage isYarn result k :
  mergeTemplatePackage appPackage templatePackage isYarn = Some result ->
  In k (Object_keys templatePackage) ->
  ~ In k templatePackageBlacklist ->
  ~ In k templatePackageToMerge ->
  sets_prototype k appPackage = false ->
  obj_get k result = obj_get k (own_entries templatePackage).
Proof.
  intros Hm Hk Hb Hmerge Hset. unfold mergeTemplatePackage in Hm.
  assert (Hin : In k
            (filter (fun key => negb (arr_includes key templatePackageBlacklist)
                                && negb (arr_includes key templatePackageToMerge))
                    (Object_keys templatePackage))).
  { apply filter_In. split; [assumption|].
    apply arr_includes_not_In in Hb, Hmerge. now rewrite Hb, Hmerge. }
  destruct isYarn.
  - destruct (yarn_scripts _ _) as [scripts|]; [|discriminate].
    injection Hm as <-.
    apply (fold_set_in (fun key => obj_get key (own_entries templatePackage)));
      [assumption|].
    now do 3 apply sets_prototype_set.
  - injection Hm as <-.
    apply (fold_set_in (fun key => obj_get key (own_entries templatePackage)));
      [assumption|].
    now do 2 apply sets_prototype_set.
Qed.

Section InitializeTemplate.

Context {host : Host}.



End InitializeTemplate.



Lemma createApp_checks_the_directory_witness :
  (outcome (isSafeToCreateProjectIn sample_root (js "my-app")
              (mkWorld home (Some allowed_dir))) = Ret true
   /\ In (WriteFile (js "package.json") (Json sample_manifest))
         (events (createApp (host := sample_host (Some 0%Z)) (js "my-app") false None
                    false (mkWorld home (Some allowed_dir)))))
  /\ (outcome (isSafeToCreateProjectIn sample_root (js "my-app")
                 (mkWorld home (Some conflicting_dir))) = Ret false
      /\ outcome (createApp (host := sample_host (Some 0%Z)) (js "my-app") false None
                    false (mkWorld home (Some conflicting_dir))) = Exit 1%Z
      /\ forallb (fun e => negb (is_write e))
           (events (createApp (host := sample_host (Some 0%Z)) (js "my-app") false None
                      false (mkWorld home (Some conflicting_dir)))) = true).
Proof.
  split.
  - apply (proj1 (createApp_checks_the_directory (host := sample_host (Some 0%Z))
                    (js "my-app") false None false (mkWorld home (Some allowed_dir))
                    allowed_dir eq_refl eq_refl)).
    + intros e He. unfold allowed_dir in He. cbn [In] in He.
      destruct He as [<-|[<-|[]]]; reflexivity.
    + reflexivity.
    + discriminate.
    + discriminate.
  - apply (proj2 (createApp_checks_the_directory (host := sample_host (Some 0%Z))
                    (js "my-app") false None false (mkWorld home (Some conflicting_dir))
                    conflicting_dir eq_refl eq_refl)).
    exists (js "src", Folder).
    split; [right; now left|]. split; [reflexivity|]. split; reflexivity.
Defined.

(** C3 as stated fails: [app.iml] is not on the allow-list, yet the check
    answers [true] and the manifest is written. *)
Lemma createApp_accepts_a_module_file :
  arr_includes (js "app.iml") validFiles = false
  /\ outcome (isSafeToCreateProjectIn sample_root (js "my-app")
                (mkWorld home (Some module_dir))) = Ret true
  /\ In (WriteFile (js "package.json") (Json sample_manifest))
        (events (createApp (host := sample_host (Some 0%Z)) (js "my-app") false None
                   false (mkWorld home (Some module_dir)))).
Proof.
  split; [reflexivity|]. split; [reflexivity|].
  vm_compute. do 2 right. now left.
Qed.

(* ================================================================== *)
(** * Further properties of the code *)

(** ** More of the matcher *)

Lemma startsWith_app p s : startsWith p (p ++ s) = true.
Proof. induction p as [|c p IH]; [reflexivity|]. simpl. now rewrite N.eqb_refl. Qed.

Lemma startsWith_split p s :
  startsWith p s = true -> s = p ++ skipn (len p) s.
Proof.
  revert s. induction p as [|c p IH]; intros s H; [reflexivity|].
  destruct s as [|d s]; [discriminate|]. simpl in H.
  apply andb_true_iff in H as [Hc Hs]. apply N.eqb_eq in Hc. subst d.
  simpl. f_equal. now apply IH.
Qed.

Lemma m_Lit input l s cs k :
  m input (Lit l) (mkState s cs) k
  = if startsWith l s then k (mkState (skipn (len l) s) cs) else None.
Proof.
  revert s. induction l as [|c l IH]; intros s; [reflexivity|].
  cbn [Lit]. rewrite m_Seq. destruct s as [|d s]; [reflexivity|].
  cbn [startsWith skipn List.length].
  destruct (N.eqb c d) eqn:E.
  - apply N.eqb_eq in E. subst d. rewrite m_Chr_hit. cbn [andb]. apply IH.
  - rewrite m_Chr_miss by (now rewrite N.eqb_sym). reflexivity.
Qed.

Lemma bol_fails_inside input r s cs k :
  len s < len input -> m input (Seq Bol r) (mkState s cs) k = None.
Proof.
  intros H. rewrite m_Seq. simpl.
  replace (len s =? len input) with false; [reflexivity|].
  symmetry. apply Nat.eqb_neq. lia.
Qed.

Lemma exec_from_inside input r n s :
  len s < len input -> exec_from (Seq Bol r) n input s = None.
Proof.
  induction s as [|c s IH]; intros H; rewrite exec_from_unfold;
    rewrite bol_fails_inside by assumption; [reflexivity|].
  apply IH. simpl in H. lia.
Qed.

(** A pattern anchored at the start is tried at the start only. *)
Lemma exec_anchored r t :
  exec (Seq Bol r) t
  = match m t (Seq Bol r) (mkState t (repeat None (ngroups (Seq Bol r)))) (fun y => Some y) with
    | Some y => Some (mkResult 0 (Some (firstn (len t - len (rest y)) t) :: caps y))
    | None => None
    end.
Proof.
  unfold exec. rewrite exec_from_unfold. rewrite Nat.sub_diag.
  destruct (m t (Seq Bol r) _ _); [reflexivity|].
  destruct t as [|c t]; [reflexivity|]. apply exec_from_inside. simpl. lia.
Qed.

Lemma test_re_file t : test re_file t = startsWith (js "file:") t.
Proof.
  unfold test, re_file. rewrite exec_anchored.
  rewrite m_Seq, m_Bol_start, m_Lit.
  now destruct (startsWith (js "file:") t).
Qed.

Section Backtracking.
Variable input : str.
Variable p : code_unit -> bool.

Lemma orelse_some_r a b : b <> None -> orelse a b <> None.
Proof. destruct a; [discriminate|auto]. Qed.

Lemma star_cls_here k s cs :
  k (mkState s cs) <> None -> m input (Star (Cls p)) (mkState s cs) k <> None.
Proof.
  intros H. destruct s as [|c s]; [now rewrite star_cls_nil|].
  destruct (p c) eqn:E.
  - rewrite star_cls_step by assumption. now apply orelse_some_r.
  - now rewrite star_cls_stop.
Qed.

(** Backtracking: when the continuation accepts after some run of the
    class, the star succeeds (with that or a longer run). *)
Lemma star_cls_some k xs ys cs :
  Forall (fun c => p c = true) xs ->
  k (mkState ys cs) <> None ->
  m input (Star (Cls p)) (mkState (xs ++ ys) cs) k <> None.
Proof.
  intros Hxs Hk. induction Hxs as [|c xs Hc _ IH].
  - now apply star_cls_here.
  - change ((c :: xs) ++ ys) with (c :: xs ++ ys).
    rewrite star_cls_step by assumption.
    destruct (m input (Star (Cls p)) (mkState (xs ++ ys) cs) k); [discriminate|].
    contradiction.
Qed.


Lemma plus_cls_unfold k s cs :
  m input (Plus (Cls p)) (mkState s cs) k
  = match s with
    | c :: t => if p c then m input (Star (Cls p)) (mkState t cs) k else None
    | [] => None
    end.
Proof. destruct s; reflexivity. Qed.

End Backtracking.

Lemma includes_app p a b : includes p (a ++ p ++ b) = true.
Proof.
  induction a as [|c a IH].
  - simpl app. destruct (p ++ b) eqn:E; simpl.
    + destruct p; [reflexivity|discriminate].
    + rewrite <- E. now rewrite startsWith_app.
  - change ((c :: a) ++ p ++ b) with (c :: a ++ p ++ b).
    cbn [includes]. rewrite IH. apply orb_true_r.
Qed.

Lemma forallb_Forall {A} (f : A -> bool) l :
  forallb f l = true -> Forall (fun x => f x = true) l.
Proof. intros H. apply Forall_forall. now apply forallb_forall. Qed.

Lemma star_cls_all input p k xs cs z :
  Forall (fun c => p c = true) xs ->
  k (mkState [] cs) = Some z ->
  m input (Star (Cls p)) (mkState xs cs) k = Some z.
Proof.
  intros Hxs Hk. rewrite <- (app_nil_r xs). now apply star_cls_run.
Qed.

Lemma star_cls_stuck input p k a lt b cs :
  Forall (fun c => p c = true) a ->
  p lt = false ->
  (forall t cs', t <> [] -> k (mkState t cs') = None) ->
  m input (Star (Cls p)) (mkState (a ++ lt :: b) cs) k = None.
Proof.
  intros Ha Hlt Hk. induction Ha as [|c a Hc _ IH].
  - cbn [app]. rewrite star_cls_stop by assumption. now apply Hk.
  - change ((c :: a) ++ lt :: b) with (c :: a ++ lt :: b).
    rewrite star_cls_step by assumption. rewrite IH. now apply Hk.
Qed.

Section TemplateForms.
Context {host : Host}.

Lemma exec_file_path p :
  wf_part dot p = true ->
  exec re_file_path (js "file:" ++ p)
  = Some (mkResult 0 [Some (js "file:" ++ p); Some p]).
Proof.
  intros Hp. apply wf_part_inv in Hp as (c & p' & -> & Hc & Hp').
  unfold re_file_path. rewrite exec_anchored.
  change (repeat None (ngroups _)) with [@None str].
  rewrite m_Seq, m_Bol_start, m_Seq, m_Lit, startsWith_app.
  change (skipn (len (js "file:")) (js "file:" ++ c :: p')) with (c :: p').
  rewrite m_Seq, m_Opt, m_Grp.
  change (groups (Grp 1 (Star (Cls dot)))) with [1].
  unfold clear; cbn [fold_right set_cap caps rest].
  erewrite star_cls_all; cycle 1.
  { constructor; assumption. }
  { cbn [rest caps set_cap]. change (len []) with 0.
    rewrite Nat.sub_0_r, firstn_all. reflexivity. }
  cbn [orelse rest caps]. change (len []) with 0.
  now rewrite Nat.sub_0_r, firstn_all.
Qed.

(** X1. A template [file:PATH] whose path is not empty and holds no line
    terminator comes back as [file:] followed by the path resolved against
    the original directory. *)
Theorem file_template_is_resolved p originalDirectory w :
  wf_part dot p = true ->
  getTemplateInstallPackage (Some (js "file:" ++ p)) originalDirectory w
  = (Ret (js "file:" ++ path_resolve (cwd w) [originalDirectory; p]), w, []).
Proof.
  intros Hp. unfold getTemplateInstallPackage.
  change (truthy_str (js "file:" ++ p)) with true. cbn [negb].
  rewrite test_re_file, startsWith_app, exec_file_path by assumption.
  reflexivity.
Qed.

Lemma exec_file_path_broken a lt b :
  forallb dot a = true -> dot lt = false ->
  exec re_file_path (js "file:" ++ a ++ lt :: b) = None.
Proof.
  intros Ha Hlt. apply forallb_Forall in Ha.
  unfold re_file_path. rewrite exec_anchored.
  change (repeat None (ngroups _)) with [@None str].
  rewrite m_Seq, m_Bol_start, m_Seq, m_Lit, startsWith_app.
  replace (skipn (len (js "file:")) (js "file:" ++ a ++ lt :: b)) with (a ++ lt :: b)
    by reflexivity.
  rewrite m_Seq, m_Opt, m_Grp.
  change (groups (Grp 1 (Star (Cls dot)))) with [1].
  unfold clear; cbn [fold_right set_cap caps rest].
  rewrite star_cls_stuck; [|assumption|assumption|].
  - destruct a; reflexivity.
  - intros t cs' Ht. cbn [rest caps].
    destruct t; [contradiction|]. destruct (consumed _ _); reflexivity.
Qed.

(** X2. The bare template [file:] throws, because the optional group
    captures nothing and [path.resolve] refuses [undefined]; a [file:]
    template whose path holds a line terminator throws too, because the
    pattern of line 560 does not match it. *)
Theorem file_template_throws_on_broken_path originalDirectory w :
  getTemplateInstallPackage (Some (js "file:")) originalDirectory w
  = (Throw TypeError, w, [])
  /\ forall a lt b,
       forallb dot a = true -> dot lt = false ->
       getTemplateInstallPackage (Some (js "file:" ++ a ++ lt :: b)) originalDirectory w
       = (Throw TypeError, w, []).
Proof.
  split; [reflexivity|]. intros a lt b Ha Hlt.
  unfold getTemplateInstallPackage.
  change (truthy_str (js "file:" ++ a ++ lt :: b)) with true. cbn [negb].
  now rewrite test_re_file, startsWith_app, exec_file_path_broken.
Qed.

Lemma exec_some_test r t res : exec r t = Some res -> test r t = true.
Proof. intros H. unfold test. now rewrite H. Qed.

Lemma test_archive x suffix :
  wf_part dot x = true ->
  suffix = js "tgz" \/ suffix = js "tar.gz" ->
  test re_archive (x ++ c_dot :: suffix) = true.
Proof.
  intros Hx Hs. apply wf_part_inv in Hx as (c & x' & -> & Hc & Hx').
  unfold test, re_archive. rewrite exec_anchored.
  change (repeat None (ngroups _)) with [@None str].
  rewrite m_Seq, m_Bol_start, m_Seq, plus_cls_unfold.
  change ((c :: x') ++ c_dot :: suffix) with (c :: x' ++ c_dot :: suffix).
  cbv iota. rewrite Hc.
  match goal with
  | |- context [m ?i (Star (Cls dot)) ?x ?k] =>
      assert (He : m i (Star (Cls dot)) x k <> None);
        [|now destruct (m i (Star (Cls dot)) x k)]
  end.
  apply star_cls_some; [assumption|].
  destruct Hs as [-> | ->]; discriminate.
Qed.

(** X3. A template that does not start with [file:] and contains [://], or
    ends in [.tgz] or [.tar.gz] after at least one character on the same
    line, is returned as it was given. *)
Theorem url_and_archive_templates_pass_through template originalDirectory w :
  startsWith (js "file:") template = false ->
  (exists a b, template = a ++ js "://" ++ b)
  \/ (exists x, wf_part dot x = true
                /\ (template = x ++ js ".tgz" \/ template = x ++ js ".tar.gz")) ->
  getTemplateInstallPackage (Some template) originalDirectory w
  = (Ret template, w, []).
Proof.
  intros Hfile Hform.
  assert (Hguard : includes (js "://") template || test re_archive template = true).
  { destruct Hform as [(a & b & ->)|(x & Hx & [-> | ->])].
    - now rewrite includes_app.
    - change (js ".tgz") with (c_dot :: js "tgz").
      rewrite (test_archive x (js "tgz")) by auto. apply orb_true_r.
    - change (js ".tar.gz") with (c_dot :: js "tar.gz").
      rewrite (test_archive x (js "tar.gz")) by auto. apply orb_true_r. }
  assert (Hne : truthy_str template = true).
  { destruct Hform as [(a & b & ->)|(x & Hx & [-> | ->])].
    - destruct a; reflexivity.
    - apply wf_part_inv in Hx as (c & x' & -> & _). reflexivity.
    - apply wf_part_inv in Hx as (c & x' & -> & _). reflexivity. }
  unfold getTemplateInstallPackage.
  rewrite Hne, test_re_file, Hfile, Hguard. reflexivity.
Qed.




End TemplateForms.

(** ** Unanchored search *)

Lemma exec_from_found r n input s res :
  exec_from r n input s = Some res ->
  exists pre t, s = pre ++ t
    /\ m input r (mkState t (repeat None n)) (fun y => Some y) <> None.
Proof.
  induction s as [|c s IH]; rewrite exec_from_unfold.
  - destruct (m input r _ _) eqn:E; [|discriminate].
    intros _. exists [], []. split; [reflexivity|]. now rewrite E.
  - destruct (m input r _ _) eqn:E.
    + intros _. exists [], (c :: s). split; [reflexivity|]. now rewrite E.
    + intros H. destruct (IH H) as (pre & t & -> & Ht).
      now exists (c :: pre), t.
Qed.

Lemma exec_from_finds r n input pre t :
  m input r (mkState t (repeat None n)) (fun y => Some y) <> None ->
  exec_from r n input (pre ++ t) <> None.
Proof.
  intros Ht. induction pre as [|c pre IH].
  - cbn [app]. rewrite exec_from_unfold.
    destruct (m input r _ _); [intros E; discriminate E|exfalso; now apply Ht].
  - change ((c :: pre) ++ t) with (c :: pre ++ t). rewrite exec_from_unfold.
    destruct (m input r (mkState (c :: pre ++ t) _) _);
      [intros E; discriminate E|exact IH].
Qed.

(** The test of line 105 is a test for the ending [.iml]. *)
Lemma test_re_iml f :
  test re_iml f = true <-> exists base, f = base ++ js ".iml".
Proof.
  unfold test, exec, re_iml. split.
  - destruct (exec_from _ _ f f) as [res|] eqn:E; [|discriminate]. intros _.
    apply exec_from_found in E as (pre & t & -> & Ht).
    exists pre. f_equal.
    rewrite m_Seq, m_Lit in Ht.
    destruct (startsWith (js ".iml") t) eqn:Es; [|now contradiction Ht].
    apply startsWith_split in Es.
    destruct (skipn (len (js ".iml")) t) as [|c l] eqn:Ek.
    + rewrite app_nil_r in Es. exact Es.
    + exfalso. now apply Ht.
  - intros (base & ->).
    destruct (exec_from _ _ _ (base ++ js ".iml")) eqn:E; [reflexivity|].
    exfalso. revert E. apply exec_from_finds. discriminate.
Qed.

Lemma isErrorLog_spec f :
  isErrorLog f = true <->
  exists pattern rest, In pattern errorLogFilePatterns /\ f = pattern ++ rest.
Proof.
  unfold isErrorLog. rewrite existsb_exists. split.
  - intros (pat & Hin & Hs). apply startsWith_split in Hs. eauto.
  - intros (pat & rest & Hin & ->). exists pat. split; [assumption|].
    apply startsWith_app.
Qed.

Lemma conflicts_of_nil files :
  conflicts_of files = [] <->
  forall f, In f files ->
    arr_includes f validFiles = true \/ test re_iml f = true \/ isErrorLog f = true.
Proof.
  split.
  - intros E f Hf.
    destruct (arr_includes f validFiles) eqn:Ev; [now left|].
    destruct (test re_iml f) eqn:Ei; [now right; left|].
    destruct (isErrorLog f) eqn:El; [now right; right|].
    pose proof (conflicts_of_In files f Hf Ev Ei El) as Hin.
    now rewrite E in Hin.
  - intros H. destruct (conflicts_of files) as [|c cs] eqn:E; [reflexivity|].
    assert (Hc : In c (conflicts_of files)) by (rewrite E; now left).
    unfold conflicts_of in Hc.
    apply filter_In in Hc as [Hc Hl]. apply filter_In in Hc as [Hc Hi].
    apply filter_In in Hc as [Hc Hv].
    apply negb_true_iff in Hl, Hi, Hv.
    destruct (H c Hc) as [Hx|[Hx|Hx]]; congruence.
Qed.

Lemma isSafe_outcome root name w d :
  proj w = Some d ->
  outcome (isSafeToCreateProjectIn root name w) = Ret true
  <-> conflicts_of (map fst d) = [].
Proof.
  intros Hd. split.
  - intros H. destruct (conflicts_of (map fst d)) as [|c cs] eqn:E; [reflexivity|].
    destruct (isSafe_conflict root name w d Hd) as (logs & Er & _);
      [congruence|].
    rewrite Er in H. discriminate.
  - intros E. now rewrite (isSafe_clear root name w d Hd E).
Qed.

(** X6. The check answers [true] exactly when every entry of the directory
    is on the allow-list, or ends in [.iml], or starts with one of the three
    error-log names. *)
Theorem isSafeToCreateProjectIn_accepts_exactly root name w d :
  proj w = Some d ->
  outcome (isSafeToCreateProjectIn root name w) = Ret true
  <-> forall f, In f (map fst d) ->
        In f validFiles
        \/ (exists base, f = base ++ js ".iml")
        \/ (exists pattern rest, In pattern errorLogFilePatterns /\ f = pattern ++ rest).
Proof.
  intros Hd. rewrite (isSafe_outcome root name w d Hd), conflicts_of_nil.
  split; intros H f Hf; specialize (H f Hf).
  - destruct H as [H|[H|H]].
    + left. now apply arr_includes_In.
    + right; left. now apply test_re_iml.
    + right; right. now apply isErrorLog_spec.
  - destruct H as [H|[H|H]].
    + left. now apply arr_includes_In.
    + right; left. now apply test_re_iml.
    + right; right. now apply isErrorLog_spec.
Qed.

Lemma map_fst_filter (P : str -> bool) (d : Dir) :
  map fst (filter (fun e => P (fst e)) d) = filter P (map fst d).
Proof.
  induction d as [|e d IH]; [reflexivity|]. simpl.
  destruct (P (fst e)); simpl; now rewrite IH.
Qed.

Lemma conflicts_of_filter P files :
  conflicts_of files = [] -> conflicts_of (filter P files) = [].
Proof.
  rewrite !conflicts_of_nil. intros H f Hf. apply H.
  now apply filter_In in Hf.
Qed.

(** X7. After a check that answered [true], a second check answers [true]
    again, removes nothing and prints nothing. *)
Theorem isSafeToCreateProjectIn_is_idempotent root name w d :
  proj w = Some d ->
  outcome (isSafeToCreateProjectIn root name w) = Ret true ->
  isSafeToCreateProjectIn root name (final (isSafeToCreateProjectIn root name w))
  = (Ret true, final (isSafeToCreateProjectIn root name w), []).
Proof.
  intros Hd Ht. apply (isSafe_outcome root name w d Hd) in Ht.
  rewrite (isSafe_clear root name w d Hd Ht). cbn [final fst snd].
  set (d' := filter (fun e => negb (isErrorLog (fst e))) d).
  assert (Hc' : conflicts_of (map fst d') = []).
  { unfold d'. rewrite (map_fst_filter (fun f => negb (isErrorLog f))).
    now apply conflicts_of_filter. }
  rewrite (isSafe_clear root name (mkWorld (cwd w) (Some d')) d' eq_refl Hc').
  cbn [cwd]. f_equal; [f_equal; f_equal; f_equal|].
  - apply filter_all. intros e He. unfold d' in He.
    now apply filter_In in He.
  - rewrite (filter_none isErrorLog); [reflexivity|].
    intros f Hf. unfold d' in Hf.
    rewrite (map_fst_filter (fun f => negb (isErrorLog f))) in Hf.
    apply filter_In in Hf as [_ Hf]. now apply negb_true_iff in Hf.
Qed.

Lemma catch_Exit {A} (c : M A) (h : Error -> M A) w n w1 ev1 :
  c w = (Exit n, w1, ev1) -> catch c h w = (Exit n, w1, ev1).
Proof. intros H. unfold catch. now rewrite H. Qed.

Lemma catch_Uncaught {A} (c : M A) (h : Error -> M A) w e w1 ev1 :
  c w = (Uncaught e, w1, ev1) -> catch c h w = (Uncaught e, w1, ev1).
Proof. intros H. unfold catch. now rewrite H. Qed.

Lemma bind_Uncaught {A B} (c : M A) (f : A -> M B) w e w1 ev1 :
  c w = (Uncaught e, w1, ev1) -> bind c f w = (Uncaught e, w1, ev1).
Proof. intros H. unfold bind. now rewrite H. Qed.

Section RunPaths.
Context {host : Host}.

(** X8. [install] starts one child; it resolves when the child ends with
    status 0 and otherwise rejects with the command line (the command and
    its arguments joined by spaces); the project directory is what the
    child left. *)
Theorem install_resolves_exactly_on_status_zero
    root isYarn dependencies verbose isOnline w :
  exists command args,
    In (Spawn command args) (events (install root isYarn dependencies verbose isOnline w))
    /\ final (install root isYarn dependencies verbose isOnline w)
       = mkWorld (cwd w) (snd (spawn_sync command args w))
    /\ (fst (spawn_sync command args w) = Some 0%Z ->
        outcome (install root isYarn dependencies verbose isOnline w) = Ret tt)
    /\ (fst (spawn_sync command args w) <> Some 0%Z ->
        outcome (install root isYarn dependencies verbose isOnline w)
        = Throw (Rejected (command ++ js " " ++ join (js " ") args))).
Proof.
  destruct (install_outcome root isYarn dependencies verbose isOnline w)
    as (command & args & logs & E & _).
  exists command, args. rewrite E. cbn [outcome final events fst snd].
  split; [apply in_or_app; right; now left|]. split; [reflexivity|].
  split.
  - intros ->. reflexivity.
  - intros H. destruct (fst (spawn_sync command args w)) as [[|?|?]|];
      try reflexivity. now contradiction H.
Qed.

(** X10. When [getTemplateInstallPackage] throws, [run] ends with that
    exception before anything is printed, started or removed: the handler of
    lines 290-328 is not reached. *)
Theorem run_stops_when_the_template_throws
    root appName verbose originalDirectory template isYarn w e :
  outcome (getTemplateInstallPackage template originalDirectory w) = Throw e ->
  run root appName verbose originalDirectory template isYarn w = (Throw e, w, []).
Proof.
  intros H. unfold run. apply bind_Throw.
  destruct (getTemplateInstallPackage_state template originalDirectory w) as [Hw He].
  rewrite <- (triple_eta (getTemplateInstallPackage template originalDirectory w)).
  now rewrite H, Hw, He.
Qed.

(** X11. With Yarn, [run] never reaches [install] offline: when the registry
    lookup fails the callback of [checkIfOnline] calls [getProxy], which the
    module does not define, and the process dies with nothing started and
    nothing cleaned up; when the lookup succeeds [install] is called with
    [isOnline] true. *)
Theorem run_with_yarn_never_falls_back_offline
    root appName verbose originalDirectory template w t :
  outcome (getTemplateInstallPackage template originalDirectory w) = Ret t ->
  (dns_lookup_fails w = true ->
   run root appName verbose originalDirectory template true w
   = (Uncaught ReferenceError, w,
      [Log (js "Installing packages. This might take a couple of minutes.")]))
  /\ (dns_lookup_fails w = false ->
      exists post,
        events (run root appName verbose originalDirectory template true w)
        = [Log (js "Installing packages. This might take a couple of minutes.");
           Log (js "Installing @babel/core, @babel/preset-env, with " ++ t);
           Log []]
          ++ events (install root true
                       [js "@babel/core"; js "@babel/preset-env"; t] verbose true w)
          ++ post).
Proof.
  intros Ht. split; intros Hdns; unfold run;
    rewrite (bind_Ret _ _ _ _ _ _ (getTemplateInstallPackage_Ret _ _ _ _ Ht));
    run_step.
  - erewrite catch_Uncaught.
    2:{ apply bind_Uncaught. unfold checkIfOnline. cbn [negb].
        run_step. cbn [outcome final events fst snd get_state]. rewrite Hdns.
        reflexivity. }
    reflexivity.
  - cbn [outcome final events fst snd app].
    match goal with
    | |- context [events (catch ?c ?h w)] =>
        destruct (catch_events c h w) as [post1 E1]; rewrite E1
    end.
    erewrite (bind_Ret _ _ w true w []).
    2:{ unfold checkIfOnline. cbn [negb]. run_step.
        cbn [outcome final events fst snd get_state]. now rewrite Hdns. }
    run_step. run_step.
    cbn [outcome final events fst snd app].
    match goal with
    | |- context [events (bind ?c ?f w)] =>
        destruct (bind_events c f w) as [post2 E2]; rewrite E2
    end.
    exists (post2 ++ post1). now rewrite <- app_assoc.
Qed.

(** X12. When the engine check of [checkNodeVersion] fails after a
    successful install, the process exits with status 1 and the project
    directory stays as the package manager left it: [process.exit] is not a
    rejection, so the handler does not run. *)
Theorem run_exits_without_cleanup_on_engine_mismatch
    root appName verbose originalDirectory template isYarn w t isOnline w1 ev :
  outcome (getTemplateInstallPackage template originalDirectory w) = Ret t ->
  outcome (checkIfOnline isYarn w) = Ret isOnline ->
  install root isYarn [js "@babel/core"; js "@babel/preset-env"; t] verbose isOnline w
  = (Ret tt, w1, ev) ->
  engines_unsatisfied w1 = true ->
  outcome (run root appName verbose originalDirectory template isYarn w) = Exit 1%Z
  /\ final (run root appName verbose originalDirectory template isYarn w) = w1.
Proof.
  intros Ht Honline Hinstall Heng. unfold run.
  rewrite (bind_Ret _ _ _ _ _ _ (getTemplateInstallPackage_Ret _ _ _ _ Ht)).
  run_step.
  erewrite catch_Exit.
  2:{ rewrite (bind_Ret _ _ _ _ _ _ (checkIfOnline_Ret _ _ _ Honline)).
      run_step. run_step. cbn [app].
      rewrite (bind_Ret _ _ _ _ _ _ Hinstall).
      erewrite (bind_Exit _ _ w1 1%Z w1).
      2:{ unfold checkNodeVersion. run_step.
          cbn [outcome final events fst snd get_state]. rewrite Heng.
          run_step. reflexivity. }
      cbn [outcome final events fst snd app]. reflexivity. }
  cbn [outcome final events fst snd]. now split.
Qed.

(** X13. When [initializeTemplate] throws after a successful install, the
    handler cleans up as after a failed install: the entries named
    [package.json] or [node_modules] are removed, the directory too when
    nothing else is left, and the process exits with status 1. *)
Theorem run_cleans_up_after_failed_template
    root appName verbose originalDirectory template isYarn w t isOnline
    w1 ev reason w2 ev2 d2 :
  outcome (getTemplateInstallPackage template originalDirectory w) = Ret t ->
  outcome (checkIfOnline isYarn w) = Ret isOnline ->
  install root isYarn [js "@babel/core"; js "@babel/preset-env"; t] verbose isOnline w
  = (Ret tt, w1, ev) ->
  engines_unsatisfied w1 = false ->
  initializeTemplate root appName verbose originalDirectory t isYarn w1
  = (Throw reason, w2, ev2) ->
  proj w2 = Some d2 ->
  outcome (run root appName verbose originalDirectory template isYarn w) = Exit 1%Z
  /\ proj (final (run root appName verbose originalDirectory template isYarn w))
     = match filter (fun e => negb (arr_includes (fst e) knownGeneratedFiles)) d2 with
       | [] => None
       | kept => Some kept
       end.
Proof.
  intros Ht Honline Hinstall Heng Hinit Hd.
  unfold run.
  rewrite (bind_Ret _ _ _ _ _ _ (getTemplateInstallPackage_Ret _ _ _ _ Ht)).
  run_step.
  erewrite catch_Throw.
  2:{ rewrite (bind_Ret _ _ _ _ _ _ (checkIfOnline_Ret _ _ _ Honline)).
      run_step. run_step. cbn [app].
      rewrite (bind_Ret _ _ _ _ _ _ Hinstall).
      erewrite (bind_Ret _ _ w1 tt w1 []).
      2:{ unfold checkNodeVersion. run_step.
          cbn [outcome final events fst snd get_state]. rewrite Heng.
          reflexivity. }
      rewrite Hinit.
      cbn [outcome final events fst snd app]. reflexivity. }
  cbn [outcome final events fst snd].
  run_step. run_step.
  assert (Hreport : exists lines,
            (if truthy_str (or_empty (reason_command reason)) then
               console_log (js "  " ++ or_empty (reason_command reason) ++ js " has failed.")
             else
               bind (console_log (js "Unexpected error. Please report it as a bug:"))
                    (fun _ => console_log (error_text reason))) w2
            = (Ret tt, w2, lines)).
  { destruct (truthy_str (or_empty (reason_command reason))); eexists; reflexivity. }
  destruct Hreport as [lines Hreport].
  rewrite (bind_Ret _ _ _ _ _ _ Hreport).
  run_step.
  rewrite (bind_Ret _ _ _ _ _ _ (readdirSync_run w2 d2 Hd)).
  erewrite bind_Ret.
  2:{ apply (forEach_remove (fun f => arr_includes f knownGeneratedFiles) _
               (fun file => if arr_includes file knownGeneratedFiles
                            then [Log (js "Deleting generated file... " ++ file);
                                  Remove file]
                            else [])
               (map fst d2) w2 d2); [|exact Hd].
      intros f w' d' Hd'. now apply known_generated_body. }
  rewrite fold_remove_listing.
  erewrite bind_Ret by (now apply readdirSync_run).
  destruct (filter (fun e => negb (arr_includes (fst e) knownGeneratedFiles)) d2)
    as [|e kept]; cbn [map List.length Nat.eqb].
  - run_step. run_step.
    cbn [outcome final events fst snd exit proj]. now split.
  - run_step. run_step.
    cbn [outcome final events fst snd exit proj]. now split.
Qed.

Lemma canNpmReadCWD_run w :
  exists b logs,
    canNpmReadCWD w = (Ret b, w, Spawn (js "npm") [js "config"; js "list"] :: logs)
    /\ forallb is_log logs = true
    /\ (b = true ->
        logs = []
        /\ exists output, npm_config_list w = Some output
             /\ In (js "; cwd = " ++ cwd w) (split_on 10%N output))
    /\ (npm_config_list w = None -> b = false /\ logs = []).
Proof.
  unfold canNpmReadCWD. run_step. run_step.
  cbn [outcome final events fst snd get_state emit app].
  destruct (npm_config_list w) as [output|] eqn:Eout.
  - destruct (find (startsWith (js "; cwd = ")) (split_on 10%N output))
      as [line|] eqn:Efind.
    + destruct (str_eqb (skipn (List.length (js "; cwd = ")) line) (cwd w)) eqn:Ecwd.
      * exists true, []. split; [reflexivity|]. split; [reflexivity|].
        split; [|discriminate]. intros _. split; [reflexivity|].
        exists output. split; [reflexivity|].
        apply find_some in Efind as [Hin Hs].
        apply str_eqb_eq in Ecwd. apply startsWith_split in Hs.
        rewrite Ecwd in Hs. now rewrite <- Hs.
      * destruct platform_win32; eexists false, _;
          (split; [reflexivity|]); (split; [reflexivity|]);
          split; discriminate.
    + exists false, []. repeat split; discriminate.
  - exists false, []. split; [reflexivity|]. split; [reflexivity|].
    split; [discriminate|]. now split.
Qed.

(** X14. [canNpmReadCWD] leaves the state alone; it answers [true], without
    a line on the console, only when a line of npm's output is [; cwd = ]
    followed by the current working directory, and [false] without a line
    when [npm config list] cannot be run. *)
Theorem canNpmReadCWD_compares_working_directories w :
  exists b logs,
    canNpmReadCWD w = (Ret b, w, Spawn (js "npm") [js "config"; js "list"] :: logs)
    /\ forallb is_log logs = true
    /\ (b = true ->
        logs = []
        /\ exists output, npm_config_list w = Some output
             /\ In (js "; cwd = " ++ cwd w) (split_on 10%N output))
    /\ (npm_config_list w = None -> b = false /\ logs = []).
Proof. exact (canNpmReadCWD_run w). Qed.


(** X15. With a name that npm's validation rejects, [createApp] exits with
    status 1 before it creates the directory: the state is untouched and
    only console lines were printed. *)
Theorem createApp_touches_nothing_for_a_rejected_name
    name verbose template isYarn w :
  validForNewPackages
    (validateProjectName (path_basename (path_resolve (cwd w) [name]))) = false ->
  outcome (createApp name verbose template isYarn w) = Exit 1%Z
  /\ final (createApp name verbose template isYarn w) = w
  /\ forallb is_log (events (createApp name verbose template isYarn w)) = true.
Proof.
  intros Hv.
  destruct (unsupported_node_warning w) as (warn & Ewarn & Hwarn).
  destruct (checkAppName_invalid _ w Hv) as (logs & Ebad & _ & Hlogs).
  unfold createApp.
  rewrite (bind_Ret _ _ _ _ _ _ Ewarn). run_step.
  cbn [outcome final events fst snd get_state].
  rewrite (bind_Exit _ _ _ _ _ _ Ebad).
  cbn [outcome final events fst snd app].
  split; [reflexivity|]. split; [reflexivity|].
  now rewrite forallb_app, Hwarn, Hlogs.
Qed.

(** X16. When the target directory does not exist, the name is accepted
    and its last segment, resolved against the working directory, is the
    target directory again, [createApp] creates it and writes the manifest,
    with nothing but console lines before that write. *)
Theorem createApp_creates_a_missing_directory name verbose template isYarn w :
  proj w = None ->
  path_resolve (cwd w) [path_basename (path_resolve (cwd w) [name])]
  = path_resolve (cwd w) [name] ->
  validForNewPackages
    (validateProjectName (path_basename (path_resolve (cwd w) [name]))) = true ->
  path_basename (path_resolve (cwd w) [name]) <> js "@babel/core" ->
  path_basename (path_resolve (cwd w) [name]) <> js "@babel/preset-env" ->
  exists before after,
    events (createApp name verbose template isYarn w)
    = before
      ++ WriteFile (js "package.json")
           (Json [ (js "name", JStr (path_basename (path_resolve (cwd w) [name])));
                   (js "version", JStr (js "1.0.0"));
                   (js "private", JBool true) ])
         :: after
    /\ forallb is_log before = true.
Proof.
  intros Hd Hroot Hvalid Hcore Hpreset.
  destruct (unsupported_node_warning w) as (warn & Ewarn & Hwarn).
  unfold createApp.
  rewrite (bind_Ret _ _ _ _ _ _ Ewarn). cbn [outcome final events fst snd].
  run_step. cbn [outcome final events fst snd].
  rewrite (bind_Ret _ _ _ _ _ _ (checkAppName_ok _ w Hvalid Hcore Hpreset)).
  cbn [outcome final events fst snd].
  erewrite (bind_Ret _ _ w tt (mkWorld (cwd w) (Some [])) [])
    by (unfold ensureDirSync; now rewrite Hroot, str_eqb_refl, Hd).
  cbn [outcome final events fst snd].
  rewrite (bind_Ret _ _ _ _ _ _
             (isSafe_clear _ _ (mkWorld (cwd w) (Some [])) [] eq_refl eq_refl)).
  cbn [outcome final events fst snd negb].
  do 4 (run_step; cbn [outcome final events fst snd]).
  cbn [app map filter].
  match goal with
  | |- context [events (bind ?c ?f ?s)] =>
      destruct (bind_events c f s) as [post E]; rewrite E
  end.
  eexists (warn ++ [_; _]), _. split.
  - rewrite <- app_assoc. cbn [app]. reflexivity.
  - rewrite forallb_app, Hwarn. reflexivity.
Qed.


End RunPaths.

(** ** The merge, continued *)

(** X18. In a merged manifest a key that the template fragment does not
    have, other than [dependencies] and [scripts], keeps the app's value;
    [dependencies] is the app's own value or an empty object, never the
    template's; and with npm [scripts] is a copy of the template's scripts,
    whatever the app had. *)
Theorem merge_leaves_other_keys_alone appPackage templatePackage isYarn result :
  mergeTemplatePackage appPackage templatePackage isYarn = Some result ->
  (forall k, ~ In k (Object_keys templatePackage) ->
             k <> js "dependencies" -> k <> js "scripts" ->
             obj_get k result = obj_get k appPackage)
  /\ obj_get (js "dependencies") result
     = js_or (obj_get (js "dependencies") appPackage) (JObj [])
  /\ (isYarn = false ->
      obj_get (js "scripts") result
      = JObj (Object_assign_empty
                (js_or (obj_get (js "scripts") (own_entries templatePackage)) (JObj [])))).
Proof.
  intros Hm. unfold mergeTemplatePackage in Hm.
  set (keys := filter (fun key => negb (arr_includes key templatePackageBlacklist)
                                  && negb (arr_includes key templatePackageToMerge))
                      (Object_keys templatePackage)) in *.
  assert (Hdep : ~ In (js "dependencies") keys).
  { intros H. apply filter_In in H as [_ H]. discriminate. }
  assert (Hscr : ~ In (js "scripts") keys).
  { intros H. apply filter_In in H as [_ H]. discriminate. }
  split; [|split].
  - intros k Hk Hkd Hks.
    assert (Hout : ~ In k keys).
    { intros H. apply filter_In in H as [H _]. contradiction. }
    apply str_eqb_neq in Hkd, Hks.
    destruct isYarn.
    + destruct (yarn_scripts _ _); [|discriminate]. injection Hm as <-.
      rewrite fold_set_other by assumption.
      now rewrite !obj_get_set_neq by assumption.
    + injection Hm as <-. rewrite fold_set_other by assumption.
      now rewrite !obj_get_set_neq by assumption.
  - destruct isYarn.
    + destruct (yarn_scripts _ _); [|discriminate]. injection Hm as <-.
      rewrite fold_set_other by assumption.
      rewrite !obj_get_set_neq by reflexivity. now apply obj_get_set_eq.
    + injection Hm as <-. rewrite fold_set_other by assumption.
      rewrite !obj_get_set_neq by reflexivity. now apply obj_get_set_eq.
  - intros ->. injection Hm as <-. rewrite fold_set_other by assumption.
    now apply obj_get_set_eq.
Qed.

(** ** npm commands in scripts *)

Lemma m_Alt input a b x k :
  m input (Alt a b) x k = orelse (m input a x k) (m input b x k).
Proof. reflexivity. Qed.

Lemma startsWith_prefix p q s :
  startsWith (p ++ q) s = true -> startsWith p s = true.
Proof.
  revert s. induction p as [|c p IH]; intros s H; [reflexivity|].
  destruct s as [|d s]; [discriminate|]. simpl in *.
  apply andb_true_iff in H as [Hc Hs]. rewrite Hc. now apply IH.
Qed.

Lemma startsWith_app_long p a c :
  len p <= len a -> startsWith p (a ++ c) = startsWith p a.
Proof.
  revert a. induction p as [|x p IH]; intros a H; [reflexivity|].
  destruct a as [|y a]; [simpl in H; lia|]. simpl.
  rewrite IH by (simpl in H; lia). reflexivity.
Qed.

Lemma includes_false_suffix p a s :
  includes p (a ++ s) = false -> includes p s = false.
Proof.
  induction a as [|c a IH]; intros H; [exact H|].
  change ((c :: a) ++ s) with (c :: a ++ s) in H. cbn [includes] in H.
  apply orb_false_iff in H as [_ H]. now apply IH.
Qed.

Lemma includes_false_here p s : includes p s = false -> startsWith p s = false.
Proof. destruct s; simpl; intros H; now apply orb_false_iff in H. Qed.

Lemma firstn_matched p s :
  startsWith p s = true -> firstn (len s - len (skipn (len p) s)) s = p.
Proof.
  intros H. apply startsWith_split in H.
  remember (skipn (len p) s) as t. rewrite H. apply firstn_app_exact.
Qed.

Lemma m_npm input s cs :
  m input re_npm (mkState s cs) (fun y => Some y)
  = if startsWith (js "npm ") s
    then Some (mkState
                 (skipn (len (if startsWith (js "npm run ") s
                              then js "npm run " else js "npm ")) s)
                 (set_cap 1
                    (Some (if startsWith (js "npm run ") s
                           then js "npm run " else js "npm "))
                    cs))
    else None.
Proof.
  unfold re_npm. rewrite m_Grp, m_Alt, !m_Lit. cbn [rest caps].
  destruct (startsWith (js "npm run ") s) eqn:Erun.
  - rewrite (startsWith_prefix (js "npm ") (js "run ") s Erun). cbn [orelse].
    now rewrite firstn_matched.
  - cbn [orelse]. destruct (startsWith (js "npm ") s) eqn:Enpm; [|reflexivity].
    now rewrite firstn_matched.
Qed.

Lemma exec_from_skip r n input pre t :
  (forall a b, pre = a ++ b -> b <> [] ->
     m input r (mkState (b ++ t) (repeat None n)) (fun y => Some y) = None) ->
  exec_from r n input (pre ++ t) = exec_from r n input t.
Proof.
  induction pre as [|c pre IH]; intros H; [reflexivity|].
  change ((c :: pre) ++ t) with (c :: pre ++ t). rewrite exec_from_unfold.
  change (c :: pre ++ t) with ((c :: pre) ++ t).
  rewrite (H [] (c :: pre) eq_refl) by discriminate.
  apply IH. intros a b E Hb. apply (H (c :: a) b); [now rewrite E|assumption].
Qed.

Lemma exec_npm_none s input :
  includes (js "npm ") s = false -> exec_from re_npm 1 input s = None.
Proof.
  induction s as [|c s IH]; intros H; rewrite exec_from_unfold;
    change (repeat None 1) with [@None str]; rewrite m_npm;
    rewrite (includes_false_here _ _ H); [reflexivity|].
  apply IH. cbn [includes] in H. now apply orb_false_iff in H.
Qed.

(** X20. The replacement of line 424 leaves a script without [npm ]
    unchanged, and otherwise rewrites the first [npm ] or [npm run ] of the
    script to [yarn ] and nothing after it. *)
Theorem yarn_replaces_the_first_npm_command :
  (forall s, includes (js "npm ") s = false ->
             replace_first re_npm (js "yarn ") s = s)
  /\ (forall pre post,
        includes (js "npm ") (pre ++ js "npm") = false ->
        replace_first re_npm (js "yarn ") (pre ++ js "npm " ++ post)
        = pre ++ js "yarn "
            ++ (if startsWith (js "run ") post then skipn 4 post else post)).
Proof.
  split.
  - intros s H. unfold replace_first, exec.
    change (ngroups re_npm) with 1. now rewrite exec_npm_none.
  - intros pre post H. unfold replace_first, exec.
    change (ngroups re_npm) with 1.
    rewrite exec_from_skip.
    2:{ intros a b E Hb. change (repeat None 1) with [@None str].
        rewrite m_npm.
        replace (startsWith (js "npm ") (b ++ js "npm " ++ post)) with false;
          [reflexivity|].
        symmetry.
        change (js "npm " ++ post) with (js "npm" ++ js " " ++ post).
        rewrite app_assoc, startsWith_app_long.
        - apply includes_false_here. apply (includes_false_suffix _ a).
          now rewrite app_assoc, <- E.
        - rewrite length_app. destruct b; [contradiction|simpl; lia]. }
    rewrite exec_from_unfold. change (repeat None 1) with [@None str].
    rewrite m_npm. change (startsWith (js "npm ") (js "npm " ++ post)) with true.
    cbv iota. cbn [index array rest caps set_cap at_ nth or_empty].
    rewrite length_app, Nat.add_sub.
    change (startsWith (js "run ") post)
      with (startsWith (js "npm run ") (js "npm " ++ post)).
    destruct (startsWith (js "npm run ") (js "npm " ++ post)) eqn:Erun.
    + rewrite firstn_matched by assumption.
      rewrite firstn_app, firstn_all, Nat.sub_diag. cbn [firstn].
      rewrite app_nil_r. f_equal. f_equal.
      rewrite skipn_app, skipn_all2 by lia.
      replace (len pre + len (js "npm run ") - len pre) with 8 by (simpl; lia).
      reflexivity.
    + rewrite firstn_matched by reflexivity.
      rewrite firstn_app, firstn_all, Nat.sub_diag. cbn [firstn].
      rewrite app_nil_r. f_equal. f_equal.
      rewrite skipn_app, skipn_all2 by lia.
      replace (len pre + len (js "npm ") - len pre) with 4 by (simpl; lia).
      reflexivity.
Qed.

(** X21. [isBabelInstalled] answers [false] when [@babel/core] is not
    listed, and [true] when it is listed although [@babel/preset-env] is
    missing. *)
Theorem isBabelInstalled_ignores_a_missing_preset appPackage :
  (obj_get (js "@babel/core")
     (own_entries (js_or (obj_get (js "dependencies") appPackage) (JObj [])))
   = JUndefined ->
   isBabelInstalled appPackage = false)
  /\ (forall deps,
        obj_get (js "dependencies") appPackage = JObj deps ->
        obj_get (js "@babel/core") deps <> JUndefined ->
        lookup (js "@babel/preset-env") deps = None ->
        isBabelInstalled appPackage = true).
Proof.
  unfold isBabelInstalled. split.
  - intros ->. reflexivity.
  - intros deps Hdeps Hcore Hpreset. rewrite Hdeps. cbn [js_or truthy own_entries].
    unfold obj_get at 2. rewrite Hpreset.
    destruct (obj_get (js "@babel/core") deps); try reflexivity.
    now contradiction Hcore.
Qed.

(** ** Every match of the package-name pattern *)

Section Inversion.
Variable input : str.

Lemma orelse_inv a b z : orelse a b = Some z -> a = Some z \/ b = Some z.
Proof. destruct a; simpl; auto. Qed.

Lemma star_cls_inv p k s cs z :
  m input (Star (Cls p)) (mkState s cs) k = Some z ->
  exists t, len t <= len s /\ k (mkState t cs) = Some z.
Proof.
  induction s as [|c s IH].
  - rewrite star_cls_nil. intros H. now exists [].
  - destruct (p c) eqn:E.
    + rewrite star_cls_step by assumption. intros H.
      apply orelse_inv in H as [H|H].
      * destruct (IH H) as (t & Ht & Hk). exists t. split; [simpl; lia|exact Hk].
      * now exists (c :: s).
    + rewrite star_cls_stop by assumption. intros H. now exists (c :: s).
Qed.

Lemma plus_cls_inv p k s cs z :
  m input (Plus (Cls p)) (mkState s cs) k = Some z ->
  exists c s' t, s = c :: s' /\ p c = true /\ len t <= len s'
                 /\ k (mkState t cs) = Some z.
Proof.
  rewrite plus_cls_unfold. destruct s as [|c s']; [discriminate|].
  destruct (p c) eqn:E; [|discriminate]. intros H.
  apply star_cls_inv in H as (t & Ht & Hk). now exists c, s', t.
Qed.

(** The version group and the end of input leave the second capture alone. *)
Lemma version_keeps_name s c1 c2 z :
  m input (Seq (Opt (Grp 3 (Seq (Chr c_at) (Plus (Cls dot))))) Eol)
    (mkState s [c1; c2; None]) (fun y => Some y) = Some z ->
  nth 1 (caps z) None = c2.
Proof.
  rewrite m_Seq, m_Opt, m_Grp, m_Seq.
  change (groups (Grp 3 (Seq (Chr c_at) (Plus (Cls dot))))) with [3].
  unfold clear; cbn [fold_right set_cap caps rest].
  intros H. apply orelse_inv in H as [H|H].
  - destruct s as [|c s]; [discriminate|].
    destruct (N.eqb c c_at) eqn:E.
    + apply N.eqb_eq in E. subst c. rewrite m_Chr_hit in H.
      apply plus_cls_inv in H as (d & s' & t & _ & _ & _ & H).
      cbn [rest caps set_cap] in H.
      destruct (consumed _ _); [|discriminate].
      destruct t; [|discriminate]. cbn [m rest] in H.
      injection H as <-. reflexivity.
    + rewrite m_Chr_miss in H by assumption. discriminate.
  - destruct s; [|discriminate]. cbn [m rest] in H. injection H as <-.
    reflexivity.
Qed.

Lemma name_starts_without_at s c1 z :
  m input (Seq (Opt (Grp 2 (Plus (Cls (not_chr c_at)))))
            (Seq (Opt (Grp 3 (Seq (Chr c_at) (Plus (Cls dot))))) Eol))
    (mkState s [c1; None; None]) (fun y => Some y) = Some z ->
  match nth 1 (caps z) None with
  | Some (c :: _) => not_chr c_at c = true
  | _ => True
  end.
Proof.
  rewrite m_Seq, m_Opt, m_Grp.
  change (groups (Grp 2 (Plus (Cls (not_chr c_at))))) with [2].
  unfold clear; cbn [fold_right set_cap caps rest].
  intros H. apply orelse_inv in H as [H|H].
  - apply plus_cls_inv in H as (c & s' & t & -> & Hc & Ht & H).
    cbn [rest caps set_cap] in H.
    destruct (consumed _ _); [|discriminate].
    apply version_keeps_name in H. rewrite H.
    replace (len (c :: s') - len t) with (S (len s' - len t))
      by (cbn [List.length]; lia).
    exact Hc.
  - apply version_keeps_name in H. now rewrite H.
Qed.

End Inversion.

Lemma package_match_name t z :
  m t re_package (mkState t [None; None; None]) (fun y => Some y) = Some z ->
  match nth 1 (caps z) None with
  | Some (c :: _) => not_chr c_at c = true
  | _ => True
  end.
Proof.
  unfold re_package. rewrite m_Seq, m_Bol_start, m_Seq, m_Opt, m_Grp, m_Seq.
  change (groups (Grp 1 (Seq (Chr c_at)
            (Seq (Plus (Cls (not_chr c_slash))) (Chr c_slash))))) with [1].
  unfold clear; cbn [fold_right set_cap caps rest].
  intros H. apply orelse_inv in H as [H|H].
  - destruct t as [|c t']; [discriminate|].
    destruct (N.eqb c c_at) eqn:E.
    + apply N.eqb_eq in E. subst c. rewrite m_Chr_hit, m_Seq in H.
      apply plus_cls_inv in H as (d & s' & u & _ & _ & _ & H).
      destruct u as [|e u]; [discriminate|].
      destruct (N.eqb e c_slash) eqn:E2.
      * apply N.eqb_eq in E2. subst e. rewrite m_Chr_hit in H.
        cbn [rest caps set_cap] in H.
        destruct (consumed _ _); [|discriminate].
        now apply name_starts_without_at in H.
      * rewrite m_Chr_miss in H by assumption. discriminate.
    + rewrite m_Chr_miss in H by assumption. discriminate.
  - now apply name_starts_without_at in H.
Qed.

Lemma no_prefix_when_first_is_not_at c name :
  not_chr c_at c = true -> has_template_prefix defaultTemplate (c :: name) = false.
Proof.
  intros Hc. unfold not_chr in Hc. apply negb_true_iff in Hc.
  unfold has_template_prefix.
  change defaultTemplate with (c_at :: js "hackermans/cba-template").
  change (str_eqb (c :: name) (c_at :: js "hackermans/cba-template"))
    with (N.eqb c c_at && str_eqb name (js "hackermans/cba-template")).
  change (startsWith ((c_at :: js "hackermans/cba-template") ++ js "-") (c :: name))
    with (N.eqb c_at c && startsWith (js "hackermans/cba-template" ++ js "-") name).
  rewrite (N.eqb_sym c_at c), Hc. reflexivity.
Qed.

Lemma exec_package_name t res :
  exec re_package t = Some res ->
  has_template_prefix defaultTemplate (or_empty (at_ res 2)) = false.
Proof.
  unfold re_package. rewrite exec_anchored. fold re_package.
  change (repeat None (ngroups _)) with [@None str; None; None].
  destruct (m t re_package _ _) as [z|] eqn:E; [|discriminate].
  intros H. injection H as <-. apply package_match_name in E.
  unfold at_. cbn [array nth].
  destruct (caps z) as [|c1 [|c2 cs]]; try reflexivity.
  cbn [nth] in *. destruct c2 as [[|c name]|]; try reflexivity.
  now apply no_prefix_when_first_is_not_at.
Qed.

Section DeadBranch.
Context {host : Host}.

(** X5. Whatever template reaches the package-name branch, a result that is
    returned contains the default template name: the test of lines 577-578
    never lets a template through unchanged. *)
Theorem package_name_templates_always_get_the_prefix
    template originalDirectory w r :
  package_name_branch template = true ->
  outcome (getTemplateInstallPackage (Some template) originalDirectory w) = Ret r ->
  includes defaultTemplate r = true.
Proof.
  intros Hbranch. unfold package_name_branch in Hbranch.
  apply andb_true_iff in Hbranch as [Hfile Hother].
  apply negb_true_iff in Hfile, Hother.
  unfold getTemplateInstallPackage.
  destruct (truthy_str template); cbn [negb].
  - rewrite Hfile, Hother.
    destruct (exec re_package template) as [res|] eqn:E; [|discriminate].
    rewrite (exec_package_name template res E).
    cbv zeta.
    match goal with
    | |- outcome ((if ?b then _ else _) _) = _ -> _ => destruct b
    end.
    + intros H. injection H as <-.
      pose proof (includes_app defaultTemplate
                    (or_empty (at_ res 3) ++ js "/") []) as Hi.
      rewrite app_nil_r, <- app_assoc in Hi. exact Hi.
    + intros H. injection H as <-.
      exact (includes_app defaultTemplate (or_empty (at_ res 1))
               (js "-" ++ or_empty (at_ res 2) ++ or_empty (at_ res 3))).
  - intros H. injection H as <-. reflexivity.
Qed.

End DeadBranch.

(** ** Scripts under Yarn *)

Lemma lookup_None k o : ~ In k (map fst o) -> lookup k o = None.
Proof.
  induction o as [|[k0 v0] o IH]; intros H; [reflexivity|]. simpl.
  destruct (str_eqb k k0) eqn:E.
  - apply str_eqb_eq in E. subst. exfalso. apply H. now left.
  - apply IH. intros Hin. apply H. now right.
Qed.

Lemma put_own_keys k v o :
  forall x, In x (map fst (put_own k v o)) <-> x = k \/ In x (map fst o).
Proof.
  induction o as [|[k0 v0] o IH]; intros x; simpl.
  - intuition.
  - destruct (str_eqb k k0) eqn:E; simpl.
    + apply str_eqb_eq in E. subst k0. intuition.
    + rewrite IH. intuition.
Qed.

Lemma put_own_NoDup k v o : NoDup (map fst o) -> NoDup (map fst (put_own k v o)).
Proof.
  induction o as [|[k0 v0] o IH]; intros H; simpl.
  - constructor; [intros []|constructor].
  - inversion H as [|? ? Hk0 Ho]; subst.
    destruct (str_eqb k k0) eqn:E; simpl.
    + now constructor.
    + constructor; [|now apply IH].
      rewrite put_own_keys. intros [->|Hin]; [|contradiction].
      now rewrite str_eqb_refl in E.
Qed.

Lemma obj_set_NoDup k v o : NoDup (map fst o) -> NoDup (map fst (obj_set k v o)).
Proof.
  intros H. unfold obj_set.
  destruct (sets_prototype k o); [exact H|now apply put_own_NoDup].
Qed.

Lemma assign_NoDup entries acc :
  NoDup (map fst acc) ->
  NoDup (map fst (fold_left (fun acc kv => obj_set (fst kv) (snd kv) acc) entries acc)).
Proof.
  revert acc. induction entries as [|[k v] entries IH]; intros acc H; [exact H|].
  cbn [fold_left fst snd]. apply IH. now apply obj_set_NoDup.
Qed.

Lemma yarn_scripts_frame entries acc o k :
  yarn_scripts entries acc = Some o ->
  ~ In k (map fst entries) -> lookup k o = lookup k acc.
Proof.
  revert acc. induction entries as [|[k0 v0] entries IH]; intros acc H Hk.
  - injection H as <-. reflexivity.
  - cbn [yarn_scripts] in H. destruct v0; try discriminate.
    rewrite (IH _ H) by (intros Hin; apply Hk; now right).
    rewrite lookup_put_own.
    destruct (str_eqb k k0) eqn:E; [|reflexivity].
    apply str_eqb_eq in E. subst. exfalso. apply Hk. now left.
Qed.

Lemma yarn_scripts_lookup entries acc o k v :
  NoDup (map fst entries) ->
  yarn_scripts entries acc = Some o ->
  lookup k entries = Some v ->
  exists s, v = JStr s
            /\ lookup k o = Some (JStr (replace_first re_npm (js "yarn ") s)).
Proof.
  revert acc. induction entries as [|[k0 v0] entries IH]; intros acc Hnd H Hk.
  - discriminate.
  - inversion Hnd as [|? ? Hk0 Hnd']; subst.
    cbn [yarn_scripts] in H. destruct v0 as [| | | |s0| |]; try discriminate.
    cbn [lookup] in Hk. destruct (str_eqb k k0) eqn:E.
    + injection Hk as <-. apply str_eqb_eq in E. subst k0.
      exists s0. split; [reflexivity|].
      rewrite (yarn_scripts_frame _ _ _ k H Hk0), lookup_put_own.
      now rewrite str_eqb_refl.
    + now apply (IH _ Hnd' H).
Qed.

(** X19. Under Yarn, when the merge succeeds, every script that
    [Object.assign] has copied from the template is a string and appears in
    the manifest with that replacement applied. *)
Theorem merge_rewrites_scripts_for_yarn appPackage templatePackage result :
  mergeTemplatePackage appPackage templatePackage true = Some result ->
  exists scripts,
    obj_get (js "scripts") result = JObj scripts
    /\ forall k v,
         lookup k (Object_assign_empty
                     (js_or (obj_get (js "scripts") (own_entries templatePackage))
                            (JObj []))) = Some v ->
         exists s, v = JStr s
                   /\ lookup k scripts
                      = Some (JStr (replace_first re_npm (js "yarn ") s)).
Proof.
  intros Hm. unfold mergeTemplatePackage in Hm.
  rewrite obj_get_set_eq in Hm by reflexivity. cbn [own_entries] in Hm.
  destruct (yarn_scripts _ _) as [scripts|] eqn:Ey; [|discriminate].
  injection Hm as <-. exists scripts. split.
  - rewrite fold_set_other.
    + now apply obj_get_set_eq.
    + intros H. apply filter_In in H as [_ H]. discriminate.
  - intros k v Hk. apply (yarn_scripts_lookup _ _ _ k v) in Ey; [exact Ey| |exact Hk].
    unfold Object_assign_empty. apply assign_NoDup. constructor.
Qed.

Section YarnArgs.
Context {host : Host}.

(** X9. With Yarn the child is [yarnpkg] with exactly [add --exact], then
    [--offline] when offline, then the dependencies in order, then [--cwd]
    and the project root, then [--verbose] when asked for; the two offline
    lines and an empty line are printed before it only when offline. *)
Theorem install_yarn_arguments root dependencies verbose isOnline w :
  exists logs,
    events (install root true dependencies verbose isOnline w)
    = logs
      ++ [Spawn (js "yarnpkg")
            ([js "add"; js "--exact"]
               ++ (if isOnline then [] else [js "--offline"])
               ++ dependencies
               ++ [js "--cwd"; root]
               ++ (if verbose then [js "--verbose"] else []))]
    /\ logs = (if isOnline then []
               else [Log (js "You appear to be offline.");
                     Log (js "Falling back to the local Yarn cache."); Log []]).
Proof.
  unfold install. destruct isOnline; cbn [negb].
  - exists []. split; [|reflexivity].
    run_step. cbn [fst snd outcome final events].
    erewrite bind_Ret by apply sync_run. cbn [events snd app].
    destruct (fst (spawn_sync _ _ w)) as [[|?|?]|]; destruct verbose;
      cbn [events snd app]; repeat rewrite <- app_assoc; cbn [app];
      rewrite ?app_nil_r; reflexivity.
  - eexists. split; [|reflexivity].
    run_step. cbn [fst snd outcome final events].
    erewrite bind_Ret by apply sync_run. cbn [events snd app].
    destruct (fst (spawn_sync _ _ w)) as [[|?|?]|]; destruct verbose;
      cbn [events snd app]; repeat rewrite <- app_assoc; cbn [app];
      rewrite ?app_nil_r; reflexivity.
Qed.

End YarnArgs.

(** ** The properties above on sample inputs *)

Lemma file_template_is_resolved_witness :
  wf_part dot (js "../tpl") = true
  /\ getTemplateInstallPackage (host := sample_host None)
       (Some (js "file:../tpl")) home (mkWorld home None)
     = (Ret (js "file:/home/dev/../tpl"), mkWorld home None, []).
Proof.
  split; [reflexivity|].
  apply (file_template_is_resolved (host := sample_host None)
           (js "../tpl") home (mkWorld home None)).
  reflexivity.
Defined.

Lemma file_template_throws_on_broken_path_witness :
  dot 10%N = false
  /\ getTemplateInstallPackage (host := sample_host None)
       (Some (js "file:a" ++ 10%N :: js "b")) home (mkWorld home None)
     = (Throw TypeError, mkWorld home None, []).
Proof.
  split; [reflexivity|].
  apply (proj2 (file_template_throws_on_broken_path (host := sample_host None)
                  home (mkWorld home None)) (js "a") 10%N (js "b"));
    reflexivity.
Defined.

Lemma url_and_archive_templates_pass_through_witness :
  startsWith (js "file:") (js "./template.tgz") = false
  /\ getTemplateInstallPackage (host := sample_host None)
       (Some (js "./template.tgz")) home (mkWorld home None)
     = (Ret (js "./template.tgz"), mkWorld home None, []).
Proof.
  split; [reflexivity|].
  apply (url_and_archive_templates_pass_through (host := sample_host None)
           (js "./template.tgz") home (mkWorld home None)); [reflexivity|].
  right. exists (js "./template"). split; [reflexivity|]. left. reflexivity.
Defined.


Lemma package_name_templates_always_get_the_prefix_witness :
  package_name_branch (js "cba-template") = true
  /\ includes defaultTemplate (js "@hackermans/cba-template-cba-template") = true.
Proof.
  split; [reflexivity|].
  apply (package_name_templates_always_get_the_prefix (host := sample_host None)
           (js "cba-template") home (mkWorld home None)
           (js "@hackermans/cba-template-cba-template")); reflexivity.
Defined.

Lemma isSafeToCreateProjectIn_accepts_exactly_witness :
  outcome (isSafeToCreateProjectIn sample_root (js "my-app")
             (mkWorld home (Some sample_dir))) = Ret true.
Proof.
  apply (proj2 (isSafeToCreateProjectIn_accepts_exactly sample_root (js "my-app")
                  (mkWorld home (Some sample_dir)) sample_dir eq_refl)).
  intros f Hf. unfold sample_dir in Hf. cbn [map fst In] in Hf.
  destruct Hf as [<-|[<-|[<-|[]]]].
  - left. unfold validFiles. cbn [In]. tauto.
  - right; right. exists (js "npm-debug.log"), (js ".123").
    split; [now left|reflexivity].
  - left. unfold validFiles. cbn [In]. tauto.
Defined.

Lemma isSafeToCreateProjectIn_is_idempotent_witness :
  isSafeToCreateProjectIn sample_root (js "my-app")
    (mkWorld home (Some [ (js ".git", Folder);
                          (js "README.md", File (Text (js "# my-app"))) ]))
  = (Ret true,
     mkWorld home (Some [ (js ".git", Folder);
                          (js "README.md", File (Text (js "# my-app"))) ]), []).
Proof.
  apply (isSafeToCreateProjectIn_is_idempotent sample_root (js "my-app")
           (mkWorld home (Some sample_dir)) sample_dir eq_refl eq_refl).
Defined.

Lemma install_resolves_exactly_on_status_zero_witness :
  exists command args,
    outcome (install (host := sample_host (Some 1%Z)) sample_root false
               [js "@babel/core"] false true (mkWorld sample_root (Some sample_project)))
    = Throw (Rejected (command ++ js " " ++ join (js " ") args)).
Proof.
  destruct (install_resolves_exactly_on_status_zero (host := sample_host (Some 1%Z))
              sample_root false [js "@babel/core"] false true
              (mkWorld sample_root (Some sample_project)))
    as (command & args & _ & _ & _ & Hbad).
  exists command, args. apply Hbad. discriminate.
Defined.

Lemma run_stops_when_the_template_throws_witness :
  run (host := sample_host (Some 0%Z)) sample_root (js "my-app") false home
    (Some (js "a@")) false (mkWorld sample_root (Some sample_project))
  = (Throw TypeError, mkWorld sample_root (Some sample_project), []).
Proof.
  apply (run_stops_when_the_template_throws (host := sample_host (Some 0%Z))
           sample_root (js "my-app") false home (Some (js "a@")) false
           (mkWorld sample_root (Some sample_project)) TypeError).
  reflexivity.
Defined.

Lemma run_with_yarn_never_falls_back_offline_witness :
  run (host := probe_host (Some 0%Z) (Some None) true true false)
    sample_root (js "my-app") false home None true
    (mkWorld sample_root (Some sample_project))
  = (Uncaught ReferenceError, mkWorld sample_root (Some sample_project),
     [Log (js "Installing packages. This might take a couple of minutes.")]).
Proof.
  apply (proj1 (run_with_yarn_never_falls_back_offline
                  (host := probe_host (Some 0%Z) (Some None) true true false)
                  sample_root (js "my-app") false home None
                  (mkWorld sample_root (Some sample_project))
                  defaultTemplate eq_refl)).
  reflexivity.
Defined.

Lemma run_exits_without_cleanup_on_engine_mismatch_witness :
  outcome (run (host := probe_host (Some 0%Z) (Some None) true false true)
             sample_root (js "my-app") false home None false
             (mkWorld sample_root (Some sample_project)))
  = Exit 1%Z
  /\ final (run (host := probe_host (Some 0%Z) (Some None) true false true)
              sample_root (js "my-app") false home None false
              (mkWorld sample_root (Some sample_project)))
     = mkWorld sample_root (Some (sample_project ++ [(js "node_modules", Folder)])).
Proof.
  apply (run_exits_without_cleanup_on_engine_mismatch
           (host := probe_host (Some 0%Z) (Some None) true false true)
           sample_root (js "my-app") false home None false
           (mkWorld sample_root (Some sample_project))
           defaultTemplate true
           (mkWorld sample_root (Some (sample_project ++ [(js "node_modules", Folder)])))
           [Spawn (js "npm")
              [js "install"; js "--no-audit"; js "--save-exact"; js "--loglevel";
               js "error"; js "@babel/core"; js "@babel/preset-env";
               js "@hackermans/cba-template"]]);
    reflexivity.
Defined.

Lemma run_cleans_up_after_failed_template_witness :
  outcome (run (host := probe_host (Some 0%Z) None true false false)
             sample_root (js "my-app") false home None false
             (mkWorld sample_root (Some sample_project)))
  = Exit 1%Z
  /\ proj (final (run (host := probe_host (Some 0%Z) None true false false)
                    sample_root (js "my-app") false home None false
                    (mkWorld sample_root (Some sample_project))))
     = Some [ (js "README.md", File (Text (js "# my-app"))) ].
Proof.
  apply (run_cleans_up_after_failed_template
           (host := probe_host (Some 0%Z) None true false false)
           sample_root (js "my-app") false home None false
           (mkWorld sample_root (Some sample_project))
           defaultTemplate true
           (mkWorld sample_root (Some (sample_project ++ [(js "node_modules", Folder)])))
           [Spawn (js "npm")
              [js "install"; js "--no-audit"; js "--save-exact"; js "--loglevel";
               js "error"; js "@babel/core"; js "@babel/preset-env";
               js "@hackermans/cba-template"]]
           MODULE_NOT_FOUND
           (mkWorld sample_root (Some (sample_project ++ [(js "node_modules", Folder)])))
           []
           (sample_project ++ [(js "node_modules", Folder)]));
    reflexivity.
Defined.

Lemma createApp_touches_nothing_for_a_rejected_name_witness :
  outcome (createApp (host := sample_host (Some 0%Z)) (js "my app") false None false
             (mkWorld home None)) = Exit 1%Z
  /\ final (createApp (host := sample_host (Some 0%Z)) (js "my app") false None false
              (mkWorld home None)) = mkWorld home None
  /\ forallb is_log
       (events (createApp (host := sample_host (Some 0%Z)) (js "my app") false None
                  false (mkWorld home None))) = true.
Proof.
  apply (createApp_touches_nothing_for_a_rejected_name (host := sample_host (Some 0%Z))
           (js "my app") false None false (mkWorld home None)).
  reflexivity.
Defined.

Lemma createApp_creates_a_missing_directory_witness :
  exists before after,
    events (createApp (host := sample_host (Some 0%Z)) (js "my-app") false None false
              (mkWorld home None))
    = before ++ WriteFile (js "package.json") (Json sample_manifest) :: after
    /\ forallb is_log before = true.
Proof.
  apply (createApp_creates_a_missing_directory (host := sample_host (Some 0%Z))
           (js "my-app") false None false (mkWorld home None));
    [reflexivity | reflexivity | reflexivity | discriminate | discriminate].
Defined.


Lemma merge_leaves_other_keys_alone_witness :
  match mergeTemplatePackage sample_manifest sample_template_package false with
  | Some result => obj_get (js "private") result = JBool true
  | None => False
  end.
Proof.
  destruct (mergeTemplatePackage sample_manifest sample_template_package false)
    as [result|] eqn:E; [|vm_compute in E; discriminate].
  rewrite (proj1 (merge_leaves_other_keys_alone _ _ _ _ E) (js "private"));
    [reflexivity| | discriminate | discriminate].
  unfold sample_template_package, Object_keys. cbn [own_entries map fst In].
  intuition discriminate.
Defined.

Lemma merge_rewrites_scripts_for_yarn_witness :
  match mergeTemplatePackage sample_manifest sample_template_package true with
  | Some result =>
      exists scripts,
        obj_get (js "scripts") result = JObj scripts
        /\ lookup (js "start") scripts = Some (JStr (js "yarn dev"))
  | None => False
  end.
Proof.
  destruct (mergeTemplatePackage sample_manifest sample_template_package true)
    as [result|] eqn:E; [|vm_compute in E; discriminate].
  destruct (merge_rewrites_scripts_for_yarn _ _ _ E) as (scripts & Hs & Hall).
  exists scripts. split; [exact Hs|].
  destruct (Hall (js "start") (JStr (js "npm run dev")) eq_refl) as (s & Es & Hl).
  injection Es as <-. exact Hl.
Defined.

Lemma yarn_replaces_the_first_npm_command_witness :
  replace_first re_npm (js "yarn ") (js "npm run build && npm test")
  = js "yarn build && npm test".
Proof.
  apply (proj2 yarn_replaces_the_first_npm_command [] (js "run build && npm test")).
  reflexivity.
Defined.

Lemma isBabelInstalled_ignores_a_missing_preset_witness :
  lookup (js "@babel/preset-env") [ (js "@babel/core", JStr (js "7.14.0")) ] = None
  /\ isBabelInstalled babel_manifest = true.
Proof.
  split; [reflexivity|].
  apply (proj2 (isBabelInstalled_ignores_a_missing_preset babel_manifest)
           [ (js "@babel/core", JStr (js "7.14.0")) ]);
    [reflexivity | discriminate | reflexivity].
Defined.

Lemma canNpmReadCWD_compares_working_directories_witness :
  canNpmReadCWD (host := probe_host (Some 0%Z) (Some None) false false false)
    (mkWorld sample_root (Some sample_project))
  = (Ret false, mkWorld sample_root (Some sample_project),
     [Spawn (js "npm") [js "config"; js "list"]]).
Proof.
  destruct (canNpmReadCWD_compares_working_directories
              (host := probe_host (Some 0%Z) (Some None) false false false)
              (mkWorld sample_root (Some sample_project)))
    as (b & logs & E & _ & _ & Hnone).
  destruct (Hnone eq_refl) as [-> ->]. exact E.
Defined.

(** ** [createApp] for names that do not end in the target directory *)


Section OtherNames.
Context {host : Host}.



End OtherNames.



(** ** The prototype accessor in the merge *)

(** X24. An app manifest without an own [__proto__] is merged into a
    manifest without one, whatever the template fragment holds under that
    name; a manifest that has one of its own gets the template's value. *)
Theorem merge_adds_no_proto appPackage templatePackage isYarn result :
  mergeTemplatePackage appPackage templatePackage isYarn = Some result ->
  (lookup (js "__proto__") appPackage = None ->
   lookup (js "__proto__") result = None)
  /\ (lookup (js "__proto__") appPackage <> None ->
      In (js "__proto__") (Object_keys templatePackage) ->
      obj_get (js "__proto__") result
      = obj_get (js "__proto__") (own_entries templatePackage)).
Proof.
  intros Hm. split.
  - intros Hnone. unfold mergeTemplatePackage in Hm.
    destruct isYarn.
    + destruct (yarn_scripts _ _) as [scripts|]; [|discriminate].
      injection Hm as <-. apply fold_set_proto. now do 3 apply lookup_proto_set.
    + injection Hm as <-. apply fold_set_proto. now do 2 apply lookup_proto_set.
  - intros Hown Hkey.
    apply (merge_takes_template_keys _ _ _ _ _ Hm Hkey).
    + unfold templatePackageBlacklist. cbn [In]. intuition discriminate.
    + unfold templatePackageToMerge. cbn [In]. intuition discriminate.
    + unfold sets_prototype. cbn [andb].
      change (str_eqb (js "__proto__") (js "__proto__")) with true. cbn [andb].
      now destruct (lookup (js "__proto__") appPackage).
Qed.

Lemma merge_adds_no_proto_witness :
  match mergeTemplatePackage sample_manifest
          (obj_get (js "package") (own_entries proto_template_json)) false with
  | Some result => lookup (js "__proto__") result = None
  | None => False
  end
  /\ match mergeTemplatePackage proto_manifest
            (obj_get (js "package") (own_entries proto_template_json)) false with
     | Some result =>
         obj_get (js "__proto__") result = JObj [ (js "polluted", JBool true) ]
     | None => False
     end.
Proof.
  split.
  - destruct (mergeTemplatePackage sample_manifest _ false) as [result|] eqn:E;
      [|vm_compute in E; discriminate].
    now apply (proj1 (merge_adds_no_proto _ _ _ _ E)).
  - destruct (mergeTemplatePackage proto_manifest _ false) as [result|] eqn:E;
      [|vm_compute in E; discriminate].
    rewrite (proj2 (merge_adds_no_proto _ _ _ _ E)); [reflexivity|discriminate|].
    right. now left.
Defined.
